(** * pricepatrol-parser: the selector resolution engine

    A shallow embedding of the structured data processing module (the path
    evaluator [evaluateStructuredDataPath] and the class
    [StructuredDataProcessor], listed after the browser module in
    [src/browser.ts]) together with the part of ECMAScript the code relies
    on.

    Layout: Part I models the JavaScript values and built-ins, Part II
    embeds the repository's functions, Part III states and proves the
    properties.

    Conventions.  A function that can throw returns a [completion].  Data
    are the values of JSON plus [undefined]; any other object is an opaque
    host value.  The built-in prototypes are the standard ones, unmodified.
    Reading a property of a host value yields a value; its conversion to a
    string may throw.  Strings are sequences of 8-bit code units.  What
    depends on the engine's tables (printing of numbers, Unicode case
    mapping, regular expressions, inherited members) is a field of the
    record [Engine], and every statement holds for every engine. *)

From Stdlib Require Import ZArith NArith String Ascii List Bool Lia.
From Stdlib Require Import DecimalString.
From Stdlib Require Import Floats.SpecFloat.
Import ListNotations.

Set Warnings "-register-all".

Local Open Scope string_scope.
Local Open Scope list_scope.

(* ================================================================== *)
(** * Part I: JavaScript values and built-ins *)
(* ================================================================== *)

(** ** Completions: a call either returns normally or throws. *)

Inductive JsError : Type :=
| TypeError
| SyntaxError
| HostError.

Inductive completion (A : Type) : Type :=
| Normal (a : A)
| Throw (e : JsError).

Arguments Normal {A} a.
Arguments Throw {A} e.

Definition bind {A B : Type} (m : completion A) (k : A -> completion B)
  : completion B :=
  match m with
  | Normal a => k a
  | Throw e => Throw e
  end.

Notation "x <- m ;; k" := (bind m (fun x => k))
  (at level 61, m at next level, right associativity).

(** [try { body } catch (error) { handler }] *)
Definition try_catch {A : Type} (body : completion A)
  (handler : JsError -> completion A) : completion A :=
  match body with
  | Normal a => Normal a
  | Throw e => handler e
  end.

(** ** Numbers: IEEE 754 binary64, as [spec_float] with 53 bits of
    precision and exponent bound 1024. *)

Definition number : Type := spec_float.

Definition prec : Z := 53.
Definition emax : Z := 1024.

Definition number_of_Z (z : Z) : number := binary_normalize prec emax z 0 false.

Definition number_of_nat (n : nat) : number := number_of_Z (Z.of_nat n).

Definition NaN : number := S754_nan.

Definition isNaN (n : number) : bool :=
  match n with
  | S754_nan => true
  | _ => false
  end.

Definition is_zero (n : number) : bool :=
  match n with
  | S754_zero _ => true
  | _ => false
  end.

(** The Number value of the decimal [(-1)^neg * m * 10^e10], rounded to
    nearest, ties to even. *)
Definition number_of_decimal (neg : bool) (m : N) (e10 : Z) : number :=
  match m with
  | N0 => S754_zero neg
  | Npos p =>
      if (0 <=? e10)%Z
      then binary_normalize prec emax
             ((if neg then Z.neg p else Z.pos p) * 10 ^ e10)%Z 0 false
      else SFdiv prec emax (S754_finite neg p 0)
             (S754_finite false (Z.to_pos (10 ^ (- e10))%Z) 0)
  end.

(** ** Values.

    [JsArray] and [JsObject] are the arrays and plain objects that
    [JSON.parse] and object literals build: an array is its element list, an
    object is the list of its own properties in insertion order (keys are
    pairwise distinct in any object the engine can build).  Every other
    object (function, built-in prototype, DOM node) is an opaque [JsHost]
    handle whose behaviour is supplied by the [Engine] below. *)

Inductive JsValue : Type :=
| JsUndefined
| JsNull
| JsBoolean (b : bool)
| JsNumber (n : number)
| JsString (s : string)
| JsArray (elems : list JsValue)
| JsObject (props : list (string * JsValue))
| JsHost (h : N).

(** [v === undefined || v === null] *)
Definition is_nullish (v : JsValue) : bool :=
  match v with
  | JsUndefined | JsNull => true
  | _ => false
  end.

Definition is_primitive (v : JsValue) : bool :=
  match v with
  | JsArray _ | JsObject _ | JsHost _ => false
  | _ => true
  end.

(** ToBoolean: the truthiness used by [!x], [a && b], [a || b], [if (x)]. *)
Definition ToBoolean (v : JsValue) : bool :=
  match v with
  | JsUndefined | JsNull => false
  | JsBoolean b => b
  | JsNumber n => negb (is_zero n || isNaN n)
  | JsString s => negb (s =? "")
  | JsArray _ | JsObject _ | JsHost _ => true
  end.

(** ** The engine: built-ins whose behaviour is fixed by the JavaScript
    engine and its Unicode and RegExp tables, not by this repository. *)

Record Engine : Type := {
  (** [Number::toString], radix 10. *)
  Number_toString : number -> string;
  (** Lookup of a key that is not an own property of a primitive, array or
      plain object: the value found on its prototype chain
      ([JsUndefined] when there is none). *)
  inherited : JsValue -> string -> JsValue;
  (** Property read on a host object. *)
  host_get : N -> string -> JsValue;
  host_isArray : N -> bool;
  host_isCallable : N -> bool;
  (** [String(h)] for a host object. *)
  host_toString : N -> completion string;
  (** Calling a host function with the given [this] and no argument. *)
  host_call : N -> JsValue -> completion JsValue;
  String_trim : string -> string;
  String_toLowerCase : string -> string;
  String_toUpperCase : string -> string;
  (** [input.match(new RegExp(pattern, flags))]: throws when the constructor
      rejects the pattern or the flags, [None] is [null], otherwise the match
      array, whose entries are strings or [undefined]. *)
  RegExp_match : string -> option string -> string
                 -> completion (option (list (option string)));
  (** [input.replace(new RegExp(pattern, flags), replacement)] *)
  RegExp_replace : string -> option string -> string -> string
                   -> completion string
}.

(** ** Strings: sequences of 8-bit code units. *)

Definition is_digit (c : ascii) : bool :=
  ((48 <=? N_of_ascii c) && (N_of_ascii c <=? 57))%N.

Definition digit_value (c : ascii) : N := (N_of_ascii c - 48)%N.

(** [s.includes(c)] for a one-character needle. *)
Fixpoint includes (c : ascii) (s : string) : bool :=
  match s with
  | EmptyString => false
  | String a rest => Ascii.eqb a c || includes c rest
  end.

(** [s.indexOf(c)] for a one-character needle: [-1] when absent. *)
Fixpoint indexOf (c : ascii) (s : string) : Z :=
  match s with
  | EmptyString => (-1)%Z
  | String a rest =>
      if Ascii.eqb a c then 0%Z
      else let i := indexOf c rest in
           if (i <? 0)%Z then (-1)%Z else (i + 1)%Z
  end.

Fixpoint string_drop (n : nat) (s : string) : string :=
  match n, s with
  | O, _ => s
  | S n', EmptyString => EmptyString
  | S n', String _ rest => string_drop n' rest
  end.

Fixpoint string_take (n : nat) (s : string) : string :=
  match n, s with
  | O, _ => EmptyString
  | S n', EmptyString => EmptyString
  | S n', String a rest => String a (string_take n' rest)
  end.

(** [s.substring(start, finish)]; [finish = None] is the one-argument form.
    Negative arguments count as 0 and the two are swapped when out of order. *)
Definition substring (s : string) (start : Z) (finish : option Z) : string :=
  let len := Z.of_nat (String.length s) in
  let clamp := fun z => Z.min (Z.max z 0) len in
  let a := clamp start in
  let b := match finish with Some f => clamp f | None => len end in
  let lo := Z.min a b in
  let hi := Z.max a b in
  string_take (Z.to_nat (hi - lo)) (string_drop (Z.to_nat lo) s).

(** [s.split(c)] for a one-character separator. *)
Fixpoint split (c : ascii) (s : string) : list string :=
  match s with
  | EmptyString => [EmptyString]
  | String a rest =>
      if Ascii.eqb a c then EmptyString :: split c rest
      else match split c rest with
           | [] => [String a EmptyString]
           | p :: ps => String a p :: ps
           end
  end.

(** The number written by a run of decimal digits, continuing [acc]. *)
Fixpoint digits_value (acc : N) (s : string) : option N :=
  match s with
  | EmptyString => Some acc
  | String c rest =>
      if is_digit c then digits_value (10 * acc + digit_value c)%N rest
      else None
  end.

(** The array index written by a property key: a non-empty run of decimal
    digits without a superfluous leading zero. *)
Definition canonical_index (key : string) : option N :=
  match key with
  | EmptyString => None
  | String c rest =>
      if Ascii.eqb c "0"
      then match rest with EmptyString => Some 0%N | _ => None end
      else digits_value 0 key
  end.

Fixpoint own_property (key : string) (props : list (string * JsValue))
  : option JsValue :=
  match props with
  | [] => None
  | (k, v) :: rest => if k =? key then Some v else own_property key rest
  end.

(** ** [parseFloat] *)

(** StrWhiteSpaceChar among the 8-bit code units. *)
Definition is_whitespace (c : ascii) : bool :=
  match N_of_ascii c with
  | 9%N | 10%N | 11%N | 12%N | 13%N | 32%N | 160%N => true
  | _ => false
  end.

Fixpoint skip_whitespace (s : string) : string :=
  match s with
  | String c rest => if is_whitespace c then skip_whitespace rest else s
  | EmptyString => s
  end.

(** Reads the longest run of decimal digits at the head of [s]: the value
    (continuing [acc]), the number of digits read, and the rest. *)
Fixpoint read_digits (acc : N) (count : nat) (s : string)
  : N * nat * string :=
  match s with
  | String c rest =>
      if is_digit c
      then read_digits (10 * acc + digit_value c)%N (S count) rest
      else (acc, count, s)
  | EmptyString => (acc, count, s)
  end.

Definition read_sign (s : string) : bool * string :=
  match s with
  | String "-" rest => (true, rest)
  | String "+" rest => (false, rest)
  | _ => (false, s)
  end.

(** The value of an ExponentPart at the head of [s], 0 when there is none. *)
Definition read_exponent (s : string) : Z :=
  match s with
  | String c rest =>
      if Ascii.eqb c "e" || Ascii.eqb c "E"
      then let '(neg, rest') := read_sign rest in
           let '(v, count, _) := read_digits 0 0 rest' in
           match count with
           | O => 0%Z
           | S _ => if neg then (- Z.of_N v)%Z else Z.of_N v
           end
      else 0%Z
  | EmptyString => 0%Z
  end.

(** [parseFloat(input)]: the longest prefix of the trimmed input that is a
    StrDecimalLiteral, [NaN] when there is none. *)
Definition parseFloat (input : string) : number :=
  let '(neg, s1) := read_sign (skip_whitespace input) in
  if prefix "Infinity" s1 then S754_infinity neg
  else
    let '(int_part, int_count, s2) := read_digits 0 0 s1 in
    let '(m, frac_count, s3) :=
      match s2 with
      | String "." rest => read_digits int_part 0 rest
      | _ => (int_part, O, s2)
      end in
    match (int_count + frac_count)%nat with
    | O => NaN
    | S _ => number_of_decimal neg m (read_exponent s3 - Z.of_nat frac_count)
    end.

(** A numeric literal of the source text, such as [0.9]. *)
Definition literal (text : string) : number := parseFloat text.

(** [s.replace(/[^\d.-]/g, '')] *)
Definition is_numeric_char (c : ascii) : bool :=
  is_digit c || Ascii.eqb c "." || Ascii.eqb c "-".

Fixpoint strip_non_numeric (s : string) : string :=
  match s with
  | EmptyString => EmptyString
  | String c rest =>
      if is_numeric_char c then String c (strip_non_numeric rest)
      else strip_non_numeric rest
  end.

(** [Array.from(s.matchAll(/\[(\d+)\]/g), match => parseInt(match[1], 10))].

    A match starts at a '[' and needs one digit or more and then ']'.  A
    failed attempt consumed digits only, none of which can start a match, so
    the scan resumes where the attempt failed and one left-to-right pass with
    the digits read since the last '[' finds the same matches.

    An index is kept as the natural number its digits write.  [parseInt]
    rounds it to a binary64, which changes indices from 2^53 on only, far
    beyond the length of any array. *)
Inductive ScanState : Type :=
| Outside
| Opened (digits : option N).

Fixpoint scan_indices_from (st : ScanState) (s : string) : list N :=
  match s with
  | EmptyString => []
  | String c rest =>
      if Ascii.eqb c "["
      then scan_indices_from (Opened None) rest
      else
        match st with
        | Outside => scan_indices_from Outside rest
        | Opened acc =>
            if is_digit c
            then scan_indices_from
                   (Opened (Some (10 * match acc with Some n => n | None => 0 end
                                  + digit_value c)%N)) rest
            else if Ascii.eqb c "]"
            then match acc with
                 | Some n => n :: scan_indices_from Outside rest
                 | None => scan_indices_from Outside rest
                 end
            else scan_indices_from Outside rest
        end
  end.

Definition scan_indices (indexPart : string) : list N :=
  scan_indices_from Outside indexPart.

Section Builtins.

Variable E : Engine.

(** [typeof v] *)
Definition typeof (v : JsValue) : string :=
  match v with
  | JsUndefined => "undefined"
  | JsNull => "object"
  | JsBoolean _ => "boolean"
  | JsNumber _ => "number"
  | JsString _ => "string"
  | JsArray _ | JsObject _ => "object"
  | JsHost h => if host_isCallable E h then "function" else "object"
  end.

Definition is_string (v : JsValue) : bool :=
  match v with
  | JsString _ => true
  | _ => false
  end.

(** [Array.isArray(v)] *)
Definition isArray (v : JsValue) : bool :=
  match v with
  | JsArray _ => true
  | JsHost h => host_isArray E h
  | _ => false
  end.

(** [v[key]] for a string key.  Reading a property of [undefined] or [null]
    throws; the built-in prototypes carry no index-named property, so an index
    beyond the end of an array or string reads [undefined]. *)
Definition Get (v : JsValue) (key : string) : completion JsValue :=
  match v with
  | JsUndefined | JsNull => Throw TypeError
  | JsBoolean _ | JsNumber _ => Normal (inherited E v key)
  | JsString s =>
      if key =? "length" then Normal (JsNumber (number_of_nat (String.length s)))
      else match canonical_index key with
           | Some i =>
               match String.get (N.to_nat i) s with
               | Some c => Normal (JsString (String c EmptyString))
               | None => Normal JsUndefined
               end
           | None => Normal (inherited E v key)
           end
  | JsArray elems =>
      if key =? "length" then Normal (JsNumber (number_of_nat (List.length elems)))
      else match canonical_index key with
           | Some i => Normal (nth (N.to_nat i) elems JsUndefined)
           | None => Normal (inherited E v key)
           end
  | JsObject props =>
      match own_property key props with
      | Some x => Normal x
      | None => Normal (inherited E v key)
      end
  | JsHost h => Normal (host_get E h key)
  end.

(** [v[index]] for a numeric index. *)
Definition Get_index (v : JsValue) (index : N) : completion JsValue :=
  match v with
  | JsArray elems => Normal (nth (N.to_nat index) elems JsUndefined)
  | _ => Get v (Number_toString E (number_of_Z (Z.of_N index)))
  end.

(** ToString of a primitive. *)
Definition ToString_primitive (v : JsValue) : completion string :=
  match v with
  | JsUndefined => Normal "undefined"
  | JsNull => Normal "null"
  | JsBoolean b => Normal (if b then "true" else "false")
  | JsNumber n => Normal (Number_toString E n)
  | JsString s => Normal s
  | _ => Throw TypeError
  end.

(** One step of OrdinaryToPrimitive: call [method] on [this] when it is
    callable and keep the result when it is a primitive. *)
Definition call_for_primitive (method this : JsValue)
  : completion (option JsValue) :=
  match method with
  | JsHost h =>
      if host_isCallable E h
      then r <- host_call E h this ;;
           Normal (if is_primitive r then Some r else None)
      else Normal None
  | _ => Normal None
  end.

(** [String(v)].  An array goes through [Array.prototype.join]; a plain
    object through OrdinaryToPrimitive with hint string, where
    [Object.prototype.toString] gives ["[object Object]"] and
    [Object.prototype.valueOf] gives the object back; an own property
    [toString] or [valueOf] shadows the inherited method. *)
Fixpoint ToString (v : JsValue) : completion string :=
  match v with
  | JsArray elems =>
      (fix join (l : list JsValue) : completion string :=
         match l with
         | [] => Normal ""
         | x :: rest =>
             sx <- (if is_nullish x then Normal "" else ToString x) ;;
             match rest with
             | [] => Normal sx
             | _ :: _ => sr <- join rest ;; Normal (sx ++ "," ++ sr)%string
             end
         end) elems
  | JsObject props =>
      match own_property "toString" props with
      | None => Normal "[object Object]"
      | Some m =>
          r <- call_for_primitive m v ;;
          match r with
          | Some p => ToString_primitive p
          | None =>
              match own_property "valueOf" props with
              | None => Throw TypeError
              | Some m' =>
                  r' <- call_for_primitive m' v ;;
                  match r' with
                  | Some p => ToString_primitive p
                  | None => Throw TypeError
                  end
              end
          end
      end
  | JsHost h => host_toString E h
  | _ => ToString_primitive v
  end.

End Builtins.

(* ================================================================== *)
(** * Part II: the repository's types and functions *)
(* ================================================================== *)

(** ** [types.ts] *)

(** The five source names, used both as selector keys and as payload keys. *)
Inductive SourceName : Type :=
| jsonLd
| metaTags
| dataLayers
| microdata
| customDataLayers.

Module StructuredDataPayload.
(** The declared field types are not checked at run time: a source is any
    value, [JsUndefined] when the field is absent. *)
Record t : Type := {
  version : option string;
  jsonLd : JsValue;
  metaTags : JsValue;
  dataLayers : JsValue;
  microdata : JsValue;
  customDataLayers : JsValue;
  url : string;
  pageTitle : string;
  timestamp : string;
  extractorVersion : string
}.
End StructuredDataPayload.

Module FieldTransformation.
Inductive kind : Type :=
| regex
| replace
| trim
| lowercase
| uppercase
| parseNumber
| parseBoolean.

Record t : Type := {
  type : kind;
  pattern : option string;
  replacement : option string;
  flags : option string
}.
End FieldTransformation.

Module FieldSelector.
Record t : Type := {
  jsonLd : option string;
  metaTags : option string;
  dataLayers : option string;
  microdata : option string;
  customDataLayers : option string;
  regex : option string;
  transformations : option (list FieldTransformation.t)
}.
End FieldSelector.

Module ExtractedField.
Record t : Type := {
  value : JsValue;
  source : SourceName;
  path : string;
  confidence : number
}.
End ExtractedField.

(** [ProductData] as [processRecipe] builds it: an object created by [{}],
    with its own properties in insertion order and its prototype, [None]
    standing for [Object.prototype]. *)
Module ProductData.
Record t : Type := {
  own : list (string * ExtractedField.t);
  proto : option ExtractedField.t
}.
End ProductData.

(** [data[source]] *)
Definition payload_source (data : StructuredDataPayload.t) (k : SourceName)
  : JsValue :=
  match k with
  | jsonLd => StructuredDataPayload.jsonLd data
  | metaTags => StructuredDataPayload.metaTags data
  | dataLayers => StructuredDataPayload.dataLayers data
  | microdata => StructuredDataPayload.microdata data
  | customDataLayers => StructuredDataPayload.customDataLayers data
  end.

(** [selector[key]] *)
Definition selector_path (selector : FieldSelector.t) (k : SourceName)
  : option string :=
  match k with
  | jsonLd => FieldSelector.jsonLd selector
  | metaTags => FieldSelector.metaTags selector
  | dataLayers => FieldSelector.dataLayers selector
  | microdata => FieldSelector.microdata selector
  | customDataLayers => FieldSelector.customDataLayers selector
  end.

(** An optional string that is truthy, with its content. *)
Definition truthy (o : option string) : option string :=
  match o with
  | Some s => if s =? "" then None else Some s
  | None => None
  end.

(** [match[i]] on a match array. *)
Definition match_entry (m : list (option string)) (i : nat) : JsValue :=
  match nth_error m i with
  | Some (Some s) => JsString s
  | _ => JsUndefined
  end.

(** [match[1] || match[0]] *)
Definition group_or_match (m : list (option string)) : JsValue :=
  if ToBoolean (match_entry m 1) then match_entry m 1 else match_entry m 0.

(** Writing an own data property: in place when the key exists, at the end
    otherwise. *)
Fixpoint set_own (own : list (string * ExtractedField.t)) (k : string)
  (v : ExtractedField.t) : list (string * ExtractedField.t) :=
  match own with
  | [] => [(k, v)]
  | (k', v') :: rest =>
      if k' =? k then (k', v) :: rest else (k', v') :: set_own rest k v
  end.

(** [result[fieldName] = extracted] on the result object of [processRecipe].
    The key [__proto__] is not stored: the assignment reaches the accessor
    [__proto__] of [Object.prototype], whose setter replaces the prototype of
    the receiver. *)
Definition assign (result : ProductData.t) (fieldName : string)
  (extracted : ExtractedField.t) : ProductData.t :=
  if fieldName =? "__proto__"
  then {| ProductData.own := ProductData.own result;
          ProductData.proto := Some extracted |}
  else {| ProductData.own := set_own (ProductData.own result) fieldName extracted;
          ProductData.proto := ProductData.proto result |}.

(** [Object.keys(result)] *)
Definition own_keys (result : ProductData.t) : list string :=
  map fst (ProductData.own result).

(** The own property under [k], [None] when [hasOwnProperty(k)] is false. *)
Fixpoint own_field (k : string) (own : list (string * ExtractedField.t))
  : option ExtractedField.t :=
  match own with
  | [] => None
  | (k', v) :: rest => if k' =? k then Some v else own_field k rest
  end.

Module Method.
Record t : Type := {
  key : SourceName;
  source : SourceName;
  confidence : number
}.
End Method.

(** The table [methods] of [processSelector]. *)
Definition methods : list Method.t :=
  [ {| Method.key := jsonLd; Method.source := jsonLd;
       Method.confidence := literal "0.9" |};
    {| Method.key := metaTags; Method.source := metaTags;
       Method.confidence := literal "0.8" |};
    {| Method.key := dataLayers; Method.source := dataLayers;
       Method.confidence := literal "0.7" |};
    {| Method.key := microdata; Method.source := microdata;
       Method.confidence := literal "0.6" |};
    {| Method.key := customDataLayers; Method.source := customDataLayers;
       Method.confidence := literal "0.5" |} ].

(** What one path segment does to the cursor: the function returns [null]
    at once, or the loop goes on with a new cursor. *)
Inductive Step : Type :=
| Return_null
| Continue (current : JsValue).

Section Processing.

Variable E : Engine.

(** ** [evaluateStructuredDataPath] *)

(** [for (const index of indices) { ... }] *)
Fixpoint apply_indices (current : JsValue) (indices : list N)
  : completion Step :=
  match indices with
  | [] => Normal (Continue current)
  | index :: rest =>
      if isArray E current
      then c <- Get_index E current index ;;
           if is_nullish c then Normal Return_null else apply_indices c rest
      else Normal Return_null
  end.

(** The body of [for (const part of parts)] up to the common test of the
    cursor. *)
Definition eval_part (current : JsValue) (part : string) : completion Step :=
  if includes "[" part && includes "]" part
  then
    let bracketStart := indexOf "[" part in
    let propertyName := substring part 0 (Some bracketStart) in
    let indexPart := substring part bracketStart None in
    let indices := scan_indices indexPart in
    match indices with
    | [] => Normal Return_null
    | _ :: _ =>
        if negb (propertyName =? "")
        then c <- Get E current propertyName ;;
             if is_nullish c then Normal Return_null
             else apply_indices c indices
        else apply_indices current indices
    end
  else c <- Get E current part ;; Normal (Continue c).

Fixpoint eval_parts (current : JsValue) (parts : list string)
  : completion (option string) :=
  match parts with
  | [] =>
      if is_nullish current then Normal None
      else s <- ToString E current ;; Normal (Some s)
  | part :: rest =>
      st <- eval_part current part ;;
      match st with
      | Return_null => Normal None
      | Continue c =>
          if is_nullish c then Normal None else eval_parts c rest
      end
  end.

(** The [try] block. *)
Definition evaluate_body (obj : JsValue) (path : string)
  : completion (option string) :=
  if negb (ToBoolean obj) || negb (ToBoolean (JsString path))
  then Normal None
  else eval_parts obj (split "." path).

Definition evaluateStructuredDataPath (obj : JsValue) (path : string)
  : completion (option string) :=
  try_catch (evaluate_body obj path) (fun _ => Normal None).

(** ** [StructuredDataProcessor] *)

Definition extractFromSource (source : JsValue) (path : string)
  : completion (option string) :=
  evaluateStructuredDataPath source path.

(** One [case] of the [switch] in [applyTransformations]. *)
Definition apply_transformation (transform : FieldTransformation.t)
  (result : JsValue) : completion JsValue :=
  match FieldTransformation.type transform with
  | FieldTransformation.regex =>
      match truthy (FieldTransformation.pattern transform), result with
      | Some pattern, JsString s =>
          m <- RegExp_match E pattern (FieldTransformation.flags transform) s ;;
          match m with
          | Some arr => Normal (group_or_match arr)
          | None => Normal result
          end
      | _, _ => Normal result
      end
  | FieldTransformation.replace =>
      match truthy (FieldTransformation.pattern transform),
            truthy (FieldTransformation.replacement transform), result with
      | Some pattern, Some replacement, JsString s =>
          s' <- RegExp_replace E pattern (FieldTransformation.flags transform)
                  s replacement ;;
          Normal (JsString s')
      | _, _, _ => Normal result
      end
  | FieldTransformation.trim =>
      match result with
      | JsString s => Normal (JsString (String_trim E s))
      | _ => Normal result
      end
  | FieldTransformation.lowercase =>
      match result with
      | JsString s => Normal (JsString (String_toLowerCase E s))
      | _ => Normal result
      end
  | FieldTransformation.uppercase =>
      match result with
      | JsString s => Normal (JsString (String_toUpperCase E s))
      | _ => Normal result
      end
  | FieldTransformation.parseNumber =>
      match result with
      | JsString s =>
          let parsed := parseFloat (strip_non_numeric s) in
          if negb (isNaN parsed) then Normal (JsNumber parsed)
          else Normal result
      | _ => Normal result
      end
  | FieldTransformation.parseBoolean =>
      match result with
      | JsString s =>
          Normal (JsBoolean
                    (existsb (String.eqb (String_toLowerCase E s))
                       ["true"; "yes"; "1"; "on"; "enabled"]))
      | _ => Normal result
      end
  end.

(** [for (const transform of transformations)] *)
Fixpoint apply_each (transformations : list FieldTransformation.t)
  (result : JsValue) : completion JsValue :=
  match transformations with
  | [] => Normal result
  | transform :: rest =>
      r <- apply_transformation transform result ;;
      apply_each rest r
  end.

Definition applyTransformations (value : JsValue)
  (transformations : option (list FieldTransformation.t))
  : completion JsValue :=
  match transformations with
  | None => Normal value
  | Some [] => Normal value
  | Some ts => apply_each ts value
  end.

(** The block [if (selector.regex && typeof processedValue === 'string')]. *)
Definition apply_selector_regex (selector : FieldSelector.t)
  (processedValue : JsValue) : completion JsValue :=
  match truthy (FieldSelector.regex selector), processedValue with
  | Some re, JsString s =>
      m <- RegExp_match E re None s ;;
      match m with
      | Some arr => Normal (group_or_match arr)
      | None => Normal processedValue
      end
  | _, _ => Normal processedValue
  end.

(** The body of [if (result !== null && result !== 'Not found')]. *)
Definition finish (selector : FieldSelector.t) (method : Method.t)
  (path result : string) : completion (option ExtractedField.t) :=
  processedValue <- applyTransformations (JsString result)
                      (FieldSelector.transformations selector) ;;
  processedValue' <- apply_selector_regex selector processedValue ;;
  Normal (Some {| ExtractedField.value := processedValue';
                  ExtractedField.source := Method.source method;
                  ExtractedField.path := path;
                  ExtractedField.confidence := Method.confidence method |}).

(** [for (const method of methods)] followed by [return null]. *)
Fixpoint try_methods (data : StructuredDataPayload.t)
  (selector : FieldSelector.t) (ms : list Method.t)
  : completion (option ExtractedField.t) :=
  match ms with
  | [] => Normal None
  | method :: rest =>
      match truthy (selector_path selector (Method.key method)) with
      | Some path =>
          if ToBoolean (payload_source data (Method.source method))
          then
            result <- extractFromSource
                        (payload_source data (Method.source method)) path ;;
            match result with
            | Some r =>
                if negb (r =? "Not found") then finish selector method path r
                else try_methods data selector rest
            | None => try_methods data selector rest
            end
          else try_methods data selector rest
      | None => try_methods data selector rest
      end
  end.

Definition processSelector (data : StructuredDataPayload.t)
  (selector : FieldSelector.t) : completion (option ExtractedField.t) :=
  try_methods data selector methods.

(** [for (const [fieldName, selector] of Object.entries(selectors))], on the
    entries of [selectors] in enumeration order. *)
Fixpoint processRecipe_loop (data : StructuredDataPayload.t)
  (entries : list (string * FieldSelector.t)) (result : ProductData.t)
  : completion ProductData.t :=
  match entries with
  | [] => Normal result
  | (fieldName, selector) :: rest =>
      extracted <- processSelector data selector ;;
      match extracted with
      | Some f => processRecipe_loop data rest (assign result fieldName f)
      | None => processRecipe_loop data rest result
      end
  end.

Definition processRecipe (data : StructuredDataPayload.t)
  (selectors : list (string * FieldSelector.t)) : completion ProductData.t :=
  processRecipe_loop data selectors
    {| ProductData.own := []; ProductData.proto := None |}.

(** [a && b] on booleans, the right operand evaluated only when needed. *)
Definition and_then (a : bool) (b : completion bool) : completion bool :=
  if a then b else Normal false.

Definition validateStructuredData (data : JsValue) : completion bool :=
  and_then (typeof E data =? "object")
 (and_then (negb (match data with JsNull => true | _ => false end))
   (v <- Get E data "jsonLd" ;; and_then (isArray E v)
   (v <- Get E data "metaTags" ;; and_then (typeof E v =? "object")
   (v <- Get E data "dataLayers" ;; and_then (typeof E v =? "object")
   (v <- Get E data "url" ;; and_then (typeof E v =? "string")
   (v <- Get E data "pageTitle" ;; and_then (typeof E v =? "string")
   (v <- Get E data "timestamp" ;; and_then (typeof E v =? "string")
   (v <- Get E data "extractorVersion" ;;
    Normal (typeof E v =? "string"))))))))).

End Processing.

(** ** The browser module: documents

    A document is the tree the page was parsed into.  An element carries
    its tag name as [element.tagName] reports it (upper case for the
    elements of an HTML document), its attributes and its child nodes.
    Which elements a selector matches, what [JSON.parse] returns and how a
    host array compares its length are the browser's business. *)

Inductive DomNode : Type :=
| DomText (data : string)
| DomElement (tagName : string) (attributes : list (string * string))
    (childNodes : list DomNode).

Record Document : Type := {
  title : string;
  documentNodes : list DomNode
}.

Record Browser : Type := {
  (** [element.matches(selector)] for the selectors of this module, none
      of which has a combinator. *)
  matches : string -> DomNode -> bool;
  (** [document.querySelector(selector)] for a selector supplied by the
      caller: throws when the selector is not valid. *)
  querySelector : Document -> string -> completion (option DomNode);
  JSON_parse : string -> completion JsValue;
  (** [h.length > 0] for a host array [h]. *)
  host_length_positive : N -> completion bool
}.

Fixpoint attribute (name : string) (attrs : list (string * string))
  : option string :=
  match attrs with
  | [] => None
  | (k, v) :: rest => if k =? name then Some v else attribute name rest
  end.

(** [element.getAttribute(name)]: [None] is [null]. *)
Definition getAttribute (element : DomNode) (name : string) : option string :=
  match element with
  | DomElement _ attrs _ => attribute name attrs
  | DomText _ => None
  end.

Definition hasAttribute (element : DomNode) (name : string) : bool :=
  match getAttribute element name with
  | Some _ => true
  | None => false
  end.

Definition tagName_of (element : DomNode) : string :=
  match element with
  | DomElement tag _ _ => tag
  | DomText _ => EmptyString
  end.

(** [node.textContent]: the data of the text nodes below, in tree order. *)
Fixpoint textContent (node : DomNode) : string :=
  match node with
  | DomText data => data
  | DomElement _ _ children =>
      (fix concat_text (l : list DomNode) : string :=
         match l with
         | [] => EmptyString
         | c :: rest => (textContent c ++ concat_text rest)%string
         end) children
  end.

(** The elements of a subtree in tree order, its root first. *)
Fixpoint elements_of (node : DomNode) : list DomNode :=
  match node with
  | DomText _ => []
  | DomElement _ _ children => node :: flat_map elements_of children
  end.

(** [document.querySelectorAll(selector)] *)
Definition querySelectorAll (B : Browser) (document : Document)
  (selector : string) : list DomNode :=
  filter (matches B selector) (flat_map elements_of (documentNodes document)).

(** The elements strictly below a scope element, in tree order, each with
    its chain of parents up to the scope element, the scope excluded and the
    nearest parent first: what [parentElement] yields step by step. *)
Fixpoint subtree_with_parents (parents : list DomNode) (node : DomNode)
  : list (list DomNode * DomNode) :=
  match node with
  | DomText _ => []
  | DomElement _ _ children =>
      (parents, node)
        :: flat_map (subtree_with_parents (node :: parents)) children
  end.

Definition descendants_with_parents (element : DomNode)
  : list (list DomNode * DomNode) :=
  match element with
  | DomText _ => []
  | DomElement _ _ children => flat_map (subtree_with_parents []) children
  end.

(** Writing an own property of a plain object, in place when the key exists
    and at the end otherwise. *)
Fixpoint set_property (props : list (string * JsValue)) (k : string)
  (v : JsValue) : list (string * JsValue) :=
  match props with
  | [] => [(k, v)]
  | (k', v') :: rest =>
      if k' =? k then (k', v) :: rest else (k', v') :: set_property rest k v
  end.

(** [object[key] = s] for a string [s] on an object created by [{}]: under
    the key [__proto__] the setter of [Object.prototype] is reached, which
    ignores a value that is neither an object nor [null]. *)
Definition assign_string (props : list (string * JsValue)) (key s : string)
  : list (string * JsValue) :=
  if key =? "__proto__" then props else set_property props key (JsString s).

(** [a || ''] on an optional string. *)
Definition or_empty (o : option string) : string :=
  match truthy o with
  | Some s => s
  | None => EmptyString
  end.

(** [a || b] on optional strings, as [if (a || b)] and [value = a || b]
    see it: the first truthy operand. *)
Definition first_truthy (a b : option string) : option string :=
  match truthy a with
  | Some s => Some s
  | None => truthy b
  end.

(** The selector [script[type="application/ld+json"]], written with the
    code of the quotation mark. *)
Definition jsonLd_selector : string :=
  let quote := String (ascii_of_nat 34) EmptyString in
  ("script[type=" ++ quote ++ "application/ld+json" ++ quote ++ "]")%string.

Definition commonDataLayerNames : list string :=
  ["dataLayer"; "digitalData"; "utag_data"].

(** The result object of [extractCustomData]: its own properties and whether
    its prototype has been replaced by [null]. *)
Module CustomData.
Record t : Type := {
  own : list (string * JsValue);
  null_prototype : bool
}.
End CustomData.

(** [result[key] = value] in [extractCustomData], where [value] is a string
    or [null].  While the prototype is [Object.prototype], the key
    [__proto__] reaches its setter: [null] replaces the prototype, a string
    is ignored.  Once the prototype is [null] the key is an ordinary one. *)
Definition assign_custom (result : CustomData.t) (key : string) (value : JsValue)
  : CustomData.t :=
  if (key =? "__proto__") && negb (CustomData.null_prototype result)
  then {| CustomData.own := CustomData.own result;
          CustomData.null_prototype :=
            match value with JsNull => true | _ => false end |}
  else {| CustomData.own := set_property (CustomData.own result) key value;
          CustomData.null_prototype := CustomData.null_prototype result |}.

Section BrowserModule.

Variable B : Browser.
Variable E : Engine.

(** *** [extractJsonLdData] *)

(** The callback of [jsonLdScripts.map]. *)
Definition parse_script (script : DomNode) : JsValue :=
  match JSON_parse B (or_empty (Some (textContent script))) with
  | Normal parsed => parsed
  | Throw _ =>
      JsObject [("error", JsString "Invalid JSON");
                ("content", JsString (textContent script))]
  end.

Definition extractJsonLdData (document : Document) : JsValue :=
  JsArray (map parse_script
             (querySelectorAll B document jsonLd_selector)).

(** *** [extractMetaTags] *)

(** [tag.getAttribute('property') || tag.getAttribute('name')], when truthy. *)
Definition meta_key (tag : DomNode) : option string :=
  first_truthy (getAttribute tag "property") (getAttribute tag "name").

(** [metaElements.forEach(tag => ...)] *)
Fixpoint collect_meta (tags : list DomNode) (metaTags : list (string * JsValue))
  : list (string * JsValue) :=
  match tags with
  | [] => metaTags
  | tag :: rest =>
      match meta_key tag with
      | Some key =>
          collect_meta rest
            (assign_string metaTags key (or_empty (getAttribute tag "content")))
      | None => collect_meta rest metaTags
      end
  end.

Definition extractMetaTags (document : Document) : JsValue :=
  JsObject (collect_meta (querySelectorAll B document "meta") []).

(** *** [extractDataLayers] *)

(** [commonDataLayerNames.forEach(name => ...)]; none of the names is
    [__proto__]. *)
Fixpoint collect_dataLayers (window : JsValue) (names : list string)
  (dataLayers : list (string * JsValue))
  : completion (list (string * JsValue)) :=
  match names with
  | [] => Normal dataLayers
  | name :: rest =>
      test <- Get E window name ;;
      if ToBoolean test
      then v <- Get E window name ;;
           collect_dataLayers window rest (set_property dataLayers name v)
      else collect_dataLayers window rest dataLayers
  end.

Definition extractDataLayers (window : JsValue) : completion JsValue :=
  dataLayers <- collect_dataLayers window commonDataLayerNames [] ;;
  Normal (JsObject dataLayers).

(** *** [extractMicrodata] *)

(** The callback of [filter]: walk [parentElement] up to the scope element
    and give up at a parent that carries [itemscope]. *)
Fixpoint belongs_to_scope (parents : list DomNode) : bool :=
  match parents with
  | [] => true
  | parent :: rest =>
      if hasAttribute parent "itemscope" then false else belongs_to_scope rest
  end.

(** [Array.from(element.querySelectorAll('[itemprop]')).filter(...)] *)
Definition scope_properties (element : DomNode) : list DomNode :=
  map snd
    (filter (fun entry => belongs_to_scope (fst entry))
       (filter (fun entry => matches B "[itemprop]" (snd entry))
          (descendants_with_parents element))).

(** The value read from a property element, before the test [if (value)]. *)
Definition property_value (prop : DomNode) : option string :=
  if hasAttribute prop "content" then getAttribute prop "content"
  else if tagName_of prop =? "META" then getAttribute prop "content"
  else if tagName_of prop =? "TIME"
  then first_truthy (getAttribute prop "datetime")
         (Some (String_trim E (textContent prop)))
  else if tagName_of prop =? "IMG" then getAttribute prop "src"
  else if tagName_of prop =? "A" then getAttribute prop "href"
  else truthy (Some (String_trim E (textContent prop))).

(** [properties.forEach(prop => ...)] *)
Fixpoint collect_properties (props : list DomNode)
  (item : list (string * JsValue)) : list (string * JsValue) :=
  match props with
  | [] => item
  | prop :: rest =>
      match truthy (getAttribute prop "itemprop") with
      | Some name =>
          match truthy (property_value prop) with
          | Some value => collect_properties rest (assign_string item name value)
          | None => collect_properties rest item
          end
      | None => collect_properties rest item
      end
  end.

(** The callback of [microdataElements.map]. *)
Definition microdata_item (element : DomNode) : JsValue :=
  let item :=
    match truthy (getAttribute element "itemtype") with
    | Some itemtype => assign_string [] "@type" itemtype
    | None => []
    end in
  JsObject (collect_properties (scope_properties element) item).

Definition extractMicrodata (document : Document) : JsValue :=
  JsArray (map microdata_item (querySelectorAll B document "[itemscope]")).

(** *** [BrowserDataExtractor] *)

(** [this.window.location?.href || ''] *)
Definition location_href (window : JsValue) : completion JsValue :=
  location <- Get E window "location" ;;
  href <- (if is_nullish location then Normal JsUndefined
           else Get E location "href") ;;
  Normal (if ToBoolean href then href else JsString "").

(** [extractAll], given the reading [now] of [new Date().toISOString()]. *)
Definition extractAll (document : Document) (window : JsValue) (now : string)
  : completion JsValue :=
  let jsonLd := extractJsonLdData document in
  let metaTags := extractMetaTags document in
  dataLayers <- extractDataLayers window ;;
  let microdata := extractMicrodata document in
  url <- location_href window ;;
  Normal (JsObject [("jsonLd", jsonLd);
                    ("metaTags", metaTags);
                    ("dataLayers", dataLayers);
                    ("microdata", microdata);
                    ("url", url);
                    ("pageTitle", JsString (or_empty (Some (title document))));
                    ("timestamp", JsString now);
                    ("extractorVersion", JsString "1.0.0")]).

(** [element.textContent?.trim() || null] *)
Definition trimmed_text_or_null (element : DomNode) : JsValue :=
  match truthy (Some (String_trim E (textContent element))) with
  | Some text => JsString text
  | None => JsNull
  end.

(** [for (const [key, selector] of Object.entries(selectors))] of
    [extractCustomData]: a selector the browser rejects is skipped. *)
Fixpoint extractCustomData_loop (document : Document)
  (entries : list (string * string)) (result : CustomData.t) : CustomData.t :=
  match entries with
  | [] => result
  | (key, selector) :: rest =>
      match querySelector B document selector with
      | Normal (Some element) =>
          extractCustomData_loop document rest
            (assign_custom result key (trimmed_text_or_null element))
      | Normal None => extractCustomData_loop document rest result
      | Throw _ => extractCustomData_loop document rest result
      end
  end.

Definition extractCustomData (document : Document)
  (selectors : list (string * string)) : CustomData.t :=
  extractCustomData_loop document selectors
    {| CustomData.own := []; CustomData.null_prototype := false |}.

(** The operand [hasDataLayer] of [hasStructuredData]: the value of the
    chain [window && window.dataLayer && Array.isArray(...) && length > 0],
    which is its first falsy operand or the last one.  The length of a data
    array is the length of its element list. *)
Definition hasDataLayer (window : JsValue) : completion JsValue :=
  if ToBoolean window
  then dataLayer <- Get E window "dataLayer" ;;
       if ToBoolean dataLayer
       then if isArray E dataLayer
            then match dataLayer with
                 | JsArray elems =>
                     Normal (JsBoolean (negb (Nat.eqb (List.length elems) 0)))
                 | JsHost h =>
                     b <- host_length_positive B h ;; Normal (JsBoolean b)
                 | _ => Normal (JsBoolean false)
                 end
            else Normal (JsBoolean false)
       else Normal dataLayer
  else Normal window.

(** [hasStructuredData]; [document = None] is a missing document. *)
Definition hasStructuredData (document : option Document) (window : JsValue)
  : JsValue :=
  match document with
  | None => JsBoolean false
  | Some doc =>
      let jsonLd := querySelectorAll B doc jsonLd_selector in
      let metaTags := querySelectorAll B doc "meta[property], meta[name]" in
      let microdata := querySelectorAll B doc "[itemscope]" in
      match hasDataLayer window with
      | Normal dataLayerOperand =>
          if negb (Nat.eqb (List.length jsonLd) 0)
             || negb (Nat.eqb (List.length metaTags) 0)
             || negb (Nat.eqb (List.length microdata) 0)
          then JsBoolean true
          else dataLayerOperand
      | Throw _ => JsBoolean false
      end
  end.

End BrowserModule.

(* ================================================================== *)
(** * Part III: the properties *)
(* ================================================================== *)

(** ** Definitions used to state them *)

(** The priority order and the confidence table, as the specification lists
    them. *)
Definition priority : list SourceName :=
  [jsonLd; metaTags; dataLayers; microdata; customDataLayers].

Definition confidence_of (src : SourceName) : number :=
  match src with
  | jsonLd => literal "0.9"
  | metaTags => literal "0.8"
  | dataLayers => literal "0.7"
  | microdata => literal "0.6"
  | customDataLayers => literal "0.5"
  end.

(** A source hits when the selector has a path for it, the payload has the
    source, and the path evaluator yields a string other than the sentinel:
    the path and the string found. *)
Definition hit (E : Engine) (data : StructuredDataPayload.t)
  (selector : FieldSelector.t) (src : SourceName) : option (string * string) :=
  match truthy (selector_path selector src) with
  | None => None
  | Some path =>
      if ToBoolean (payload_source data src)
      then match evaluateStructuredDataPath E (payload_source data src) path with
           | Normal (Some r) => if r =? "Not found" then None else Some (path, r)
           | _ => None
           end
      else None
  end.

Fixpoint first_hit (E : Engine) (data : StructuredDataPayload.t)
  (selector : FieldSelector.t) (srcs : list SourceName)
  : option (SourceName * (string * string)) :=
  match srcs with
  | [] => None
  | src :: rest =>
      match hit E data selector src with
      | Some found => Some (src, found)
      | None => first_hit E data selector rest
      end
  end.

(** What is done with a hit: the pipeline, then the standalone regex. *)
Definition post_process (E : Engine) (selector : FieldSelector.t)
  (raw : string) : completion JsValue :=
  v <- applyTransformations E (JsString raw)
         (FieldSelector.transformations selector) ;;
  apply_selector_regex E selector v.

(** The text between two brackets of a well-formed index: one decimal digit
    or more. *)
Fixpoint all_digits (s : string) : bool :=
  match s with
  | EmptyString => true
  | String c rest => is_digit c && all_digits rest
  end.

Definition index_text (ds : string) : bool :=
  negb (ds =? "") && all_digits ds.

(** A path segment [name[d1][d2]...]: a property name, which may be empty,
    followed by bracketed index texts. *)
Fixpoint brackets (dss : list string) : string :=
  match dss with
  | [] => EmptyString
  | ds :: rest => ("[" ++ ds ++ "]" ++ brackets rest)%string
  end.

Definition segment (name : string) (dss : list string) : string :=
  (name ++ brackets dss)%string.

(** The index an index text writes. *)
Definition index_of_text (ds : string) : N :=
  match digits_value 0 ds with
  | Some n => n
  | None => 0%N
  end.

(** The element of a sequence at an index, in the words of the
    specification: the cursor must be a sequence, and an index out of range
    (or a null element) yields nothing. *)
Definition element (E : Engine) (cursor : JsValue) (index : N)
  : option JsValue :=
  match cursor with
  | JsArray elems =>
      match nth_error elems (N.to_nat index) with
      | Some x => if is_nullish x then None else Some x
      | None => None
      end
  | JsHost h =>
      if host_isArray E h
      then let x := host_get E h (Number_toString E (number_of_Z (Z.of_N index))) in
           if is_nullish x then None else Some x
      else None
  | _ => None
  end.

Fixpoint index_chain (E : Engine) (cursor : JsValue) (indices : list N)
  : option JsValue :=
  match indices with
  | [] => Some cursor
  | i :: rest =>
      match element E cursor i with
      | Some x => index_chain E x rest
      | None => None
      end
  end.

(** The property of a value under a name, nothing when it is missing
    ([undefined] or [null]). *)
Definition property (E : Engine) (cursor : JsValue) (name : string)
  : option JsValue :=
  match Get E cursor name with
  | Normal x => if is_nullish x then None else Some x
  | Throw _ => None
  end.

(** A bracketed segment, in the words of the specification: advance into the
    property when there is a name, then apply each index in turn. *)
Definition bracket_access (E : Engine) (cursor : JsValue) (name : string)
  (indices : list N) : option JsValue :=
  if name =? "" then index_chain E cursor indices
  else match property E cursor name with
       | Some c => index_chain E c indices
       | None => None
       end.

Definition step_of (o : option JsValue) : Step :=
  match o with
  | Some c => Continue c
  | None => Return_null
  end.

(** Following plain property names from a root. *)
Fixpoint walk (E : Engine) (cursor : JsValue) (names : list string)
  : option JsValue :=
  match names with
  | [] => Some cursor
  | name :: rest =>
      match property E cursor name with
      | Some c => walk E c rest
      | None => None
      end
  end.

(** A segment without a pair of brackets: a plain property name. *)
Definition plain_name (part : string) : bool :=
  negb (includes "[" part && includes "]" part).

(** The cursor after one segment of any form, nothing when the segment makes
    the evaluator give up. *)
Definition advance (E : Engine) (cursor : JsValue) (part : string)
  : option JsValue :=
  match eval_part E cursor part with
  | Normal (Continue c) => if is_nullish c then None else Some c
  | _ => None
  end.

Fixpoint resolve (E : Engine) (cursor : JsValue) (parts : list string)
  : option JsValue :=
  match parts with
  | [] => Some cursor
  | part :: rest =>
      match advance E cursor part with
      | Some c => resolve E c rest
      | None => None
      end
  end.

(** The string form of a leaf, [None] when the conversion itself faults. *)
Definition stringified (E : Engine) (leaf : JsValue) : option string :=
  match ToString E leaf with
  | Normal s => Some s
  | Throw _ => None
  end.

(** ** Engines and data for closed examples *)

Definition ascii_lower (c : ascii) : ascii :=
  let n := N_of_ascii c in
  if ((65 <=? n) && (n <=? 90))%N then ascii_of_N (n + 32) else c.

Definition ascii_upper (c : ascii) : ascii :=
  let n := N_of_ascii c in
  if ((97 <=? n) && (n <=? 122))%N then ascii_of_N (n - 32) else c.

Fixpoint string_map (f : ascii -> ascii) (s : string) : string :=
  match s with
  | EmptyString => EmptyString
  | String c rest => String (f c) (string_map f rest)
  end.

Fixpoint trim_end (s : string) : string :=
  match s with
  | EmptyString => EmptyString
  | String c rest =>
      match trim_end rest with
      | EmptyString => if is_whitespace c then EmptyString
                       else String c EmptyString
      | kept => String c kept
      end
  end.

(** [Number::toString] in radix 10: the shortest decimal that reads back as
    the number, laid out with or without exponent by the position of the
    decimal point. *)
Definition decimal_digits (n : Z) : string :=
  NilZero.string_of_uint (N.to_uint (Z.to_N n)).

Fixpoint zeros (n : nat) : string :=
  match n with
  | O => EmptyString
  | S n' => String "0" (zeros n')
  end.

(** [m * 2^e / 10^p] as a fraction of positive integers. *)
Definition scaled (m e p : Z) : Z * Z :=
  (m * 2 ^ Z.max e 0 * 10 ^ Z.max (- p) 0,
   2 ^ Z.max (- e) 0 * 10 ^ Z.max p 0)%Z.

(** The least [n] with [m * 2^e < 10^n]. *)
Definition decimal_exponent (m e : Z) : Z :=
  let n0 := ((Z.log2 m + e) * 30103 / 100000 - 1)%Z in
  let below := fun n => let '(num, den) := scaled m e n in (num <? den)%Z in
  match find below (map (fun i => (n0 + Z.of_nat i)%Z) (seq 0 6)) with
  | Some n => n
  | None => n0
  end.

Fixpoint strip_zeros (fuel : nat) (s p : Z) : Z * Z :=
  match fuel with
  | O => (s, p)
  | S fuel' =>
      if ((0 <? s) && (s mod 10 =? 0))%Z
      then strip_zeros fuel' (s / 10)%Z (p + 1)%Z
      else (s, p)
  end.

(** The shortest digits [s] and exponent [p] such that [s * 10^p] rounds to
    [m * 2^e], the closest to it among those of that length. *)
Definition shortest_decimal (m e : Z) : Z * Z :=
  let nx := decimal_exponent m e in
  let candidate := fun k : Z =>
    let p := (nx - k)%Z in
    let '(num, den) := scaled m e p in
    let lo := (num / den)%Z in
    let rem := (num mod den)%Z in
    let reads_back := fun s =>
      match number_of_decimal false (Z.to_N s) p with
      | S754_finite false m' e' => ((Z.pos m' =? m) && (e' =? e))%Z
      | _ => false
      end in
    let prefer_hi := ((den <? 2 * rem) || ((2 * rem =? den) && Z.odd lo))%Z in
    match reads_back lo, reads_back (lo + 1)%Z with
    | true, true => Some (if prefer_hi then (lo + 1)%Z else lo, p)
    | true, false => Some (lo, p)
    | false, true => Some ((lo + 1)%Z, p)
    | false, false => None
    end in
  let fix search (ks : list Z) : Z * Z :=
    match ks with
    | [] => (m, e)
    | k :: rest =>
        match candidate k with
        | Some r => r
        | None => search rest
        end
    end in
  let '(s, p) := search (map Z.of_nat (seq 1 17)) in
  strip_zeros 20 s p.

Definition format_digits (ds : string) (n : Z) : string :=
  let k := Z.of_nat (String.length ds) in
  if ((k <=? n) && (n <=? 21))%Z
  then (ds ++ zeros (Z.to_nat (n - k)))%string
  else if ((0 <? n) && (n <=? 21))%Z
  then (string_take (Z.to_nat n) ds ++ "." ++ string_drop (Z.to_nat n) ds)%string
  else if ((-6 <? n) && (n <=? 0))%Z
  then ("0." ++ zeros (Z.to_nat (- n)) ++ ds)%string
  else
    let exponent := ((if (0 <=? n - 1)%Z then "+" else "-")
                     ++ decimal_digits (Z.abs (n - 1)))%string in
    match ds with
    | EmptyString => EmptyString
    | String d EmptyString => (ds ++ "e" ++ exponent)%string
    | String d rest => (String d ("." ++ rest) ++ "e" ++ exponent)%string
    end.

Definition number_to_string (x : number) : string :=
  match x with
  | S754_nan => "NaN"
  | S754_zero _ => "0"
  | S754_infinity s => if s then "-Infinity" else "Infinity"
  | S754_finite s m e =>
      let '(d, p) := shortest_decimal (Z.pos m) e in
      let ds := decimal_digits d in
      ((if s then "-" else "")
       ++ format_digits ds (p + Z.of_nat (String.length ds)))%string
  end.

(** An engine fragment: numbers printed in radix 10, ASCII case mapping and
    trimming, a prototype chain without members, no host object, and a RegExp
    whose outcome on the inputs at hand is given.  It serves to instantiate
    statements that hold for every engine. *)
Definition engine_matching (outcome : completion (option (list (option string))))
  : Engine :=
  {| Number_toString := number_to_string;
     inherited := fun _ _ => JsUndefined;
     host_get := fun _ _ => JsUndefined;
     host_isArray := fun _ => false;
     host_isCallable := fun _ => false;
     host_toString := fun _ => Normal "[object Object]";
     host_call := fun _ _ => Throw HostError;
     String_trim := fun s => trim_end (skip_whitespace s);
     String_toLowerCase := string_map ascii_lower;
     String_toUpperCase := string_map ascii_upper;
     RegExp_match := fun _ _ _ => outcome;
     RegExp_replace := fun _ _ _ _ => Throw SyntaxError |}.

Definition plain_engine : Engine := engine_matching (Normal None).

Definition payload_of (jsonLd metaTags dataLayers : JsValue)
  : StructuredDataPayload.t :=
  {| StructuredDataPayload.version := None;
     StructuredDataPayload.jsonLd := jsonLd;
     StructuredDataPayload.metaTags := metaTags;
     StructuredDataPayload.dataLayers := dataLayers;
     StructuredDataPayload.microdata := JsUndefined;
     StructuredDataPayload.customDataLayers := JsUndefined;
     StructuredDataPayload.url := "https://example.com/product";
     StructuredDataPayload.pageTitle := "Example Product";
     StructuredDataPayload.timestamp := "2025-01-23T00:00:00.000Z";
     StructuredDataPayload.extractorVersion := "1.0.0" |}.

(** The payload of the README, with the price of the specification. *)
Definition example_payload : StructuredDataPayload.t :=
  payload_of
    (JsArray [JsObject [("@type", JsString "Product");
                        ("name", JsString "Example Product");
                        ("offers", JsObject [("price", JsString "1399.00")])]])
    (JsObject [("og:title", JsString "Example Product Page")])
    (JsObject [("dataLayer",
                JsArray [JsObject [("product",
                                    JsObject [("name", JsString "Example")])]])]).

Definition selector_of (jsonLd metaTags dataLayers regex : option string)
  (transformations : option (list FieldTransformation.t)) : FieldSelector.t :=
  {| FieldSelector.jsonLd := jsonLd;
     FieldSelector.metaTags := metaTags;
     FieldSelector.dataLayers := dataLayers;
     FieldSelector.microdata := None;
     FieldSelector.customDataLayers := None;
     FieldSelector.regex := regex;
     FieldSelector.transformations := transformations |}.

Definition transformation_of (k : FieldTransformation.kind)
  (pattern replacement : option string) : FieldTransformation.t :=
  {| FieldTransformation.type := k;
     FieldTransformation.pattern := pattern;
     FieldTransformation.replacement := replacement;
     FieldTransformation.flags := None |}.

Definition field_of (value : JsValue) (src : SourceName) (path : string)
  : ExtractedField.t :=
  {| ExtractedField.value := value;
     ExtractedField.source := src;
     ExtractedField.path := path;
     ExtractedField.confidence := confidence_of src |}.

(** The data of the specification's examples. *)
Definition deep_data : JsValue :=
  JsArray [JsArray [JsArray [JsObject [("value", JsString "deep")]]]].

Definition complex_data : JsValue :=
  JsObject [("complex",
             JsObject [("items",
                        JsArray [JsObject [("price", JsNumber (number_of_Z 10))];
                                 JsObject [("price", JsNumber (number_of_Z 20))]])])].

(** An object whose own [toString] is not callable: [String] throws on it. *)
Definition unprintable_data : JsValue :=
  JsObject [("a", JsObject [("toString", JsString "x")])].

Definition array_data : JsValue :=
  JsObject [("array", JsArray [JsString "item1"; JsString "item2";
                               JsString "item3"])].

(** A row of the method table is standard when its key is its source and
    its confidence the one the specification gives that source. *)
Definition standard (m : Method.t) : Prop :=
  Method.key m = Method.source m
  /\ Method.confidence m = confidence_of (Method.source m).

(** The standalone regex step as the specification words it: on a match,
    capture group 1 if that group is present, else the full match. *)
Definition group_if_present (m : list (option string)) : JsValue :=
  match nth_error m 1 with
  | Some (Some group1) => JsString group1
  | _ => match_entry m 0
  end.

Definition prefers_present_group (E : Engine) (data : StructuredDataPayload.t)
  (selector : FieldSelector.t) : Prop :=
  forall src path raw re s m,
    first_hit E data selector priority = Some (src, (path, raw)) ->
    applyTransformations E (JsString raw)
      (FieldSelector.transformations selector) = Normal (JsString s) ->
    truthy (FieldSelector.regex selector) = Some re ->
    RegExp_match E re None s = Normal (Some m) ->
    processSelector E data selector
    = Normal (Some (field_of (group_if_present m) src path)).

(** What the code prefers: capture group 1 if it is present and not empty. *)
Definition group_if_not_empty (m : list (option string)) : JsValue :=
  match nth_error m 1 with
  | Some (Some group1) =>
      if group1 =? "" then match_entry m 0 else JsString group1
  | _ => match_entry m 0
  end.

(** The pattern [(a?)b] matches the string [b] with an empty first group:
    the match array is [b] followed by the empty string. *)
Definition empty_group_engine : Engine :=
  engine_matching (Normal (Some [Some "b"; Some ""])).

Definition empty_group_payload : StructuredDataPayload.t :=
  payload_of JsUndefined (JsObject [("w", JsString "b")]) JsUndefined.

Definition empty_group_selector : FieldSelector.t :=
  selector_of None (Some "w") None (Some "(a?)b") None.


Definition price_selector : FieldSelector.t :=
  selector_of (Some "0.offers.price") None None None
    (Some [transformation_of FieldTransformation.parseNumber None None]).

(** A candidate payload that is well-typed except for [metaTags: null]. *)
Definition null_metaTags_candidate : JsValue :=
  JsObject [("jsonLd", JsArray []);
            ("metaTags", JsNull);
            ("dataLayers", JsObject []);
            ("url", JsString "https://example.com/product");
            ("pageTitle", JsString "Example Product");
            ("timestamp", JsString "2025-01-23T00:00:00.000Z");
            ("extractorVersion", JsString "1.0.0")].

(** [data.key], for a [data] that is neither [undefined] nor [null]. *)
Definition field (E : Engine) (data : JsValue) (key : string) : JsValue :=
  match Get E data key with
  | Normal x => x
  | Throw _ => JsUndefined
  end.

(** The test of [validateStructuredData], conjunct by conjunct. *)
Definition well_typed (E : Engine) (data : JsValue) : bool :=
  (typeof E data =? "object")
  && negb (match data with JsNull => true | _ => false end)
  && isArray E (field E data "jsonLd")
  && (typeof E (field E data "metaTags") =? "object")
  && (typeof E (field E data "dataLayers") =? "object")
  && (typeof E (field E data "url") =? "string")
  && (typeof E (field E data "pageTitle") =? "string")
  && (typeof E (field E data "timestamp") =? "string")
  && (typeof E (field E data "extractorVersion") =? "string").

(** [selectors[name]] on the entries of [selectors]. *)
Fixpoint find_entry (name : string) (entries : list (string * FieldSelector.t))
  : option FieldSelector.t :=
  match entries with
  | [] => None
  | (k, selector) :: rest =>
      if k =? name then Some selector else find_entry name rest
  end.

(** The result of [processSelector] as a caller sees it when it returns. *)
Definition resolution (E : Engine) (data : StructuredDataPayload.t)
  (selector : FieldSelector.t) : option ExtractedField.t :=
  match processSelector E data selector with
  | Normal r => r
  | Throw _ => None
  end.

(** A recipe whose only field is named [__proto__], as
    [JSON.parse] builds it from the text
    [{ "__proto__": { "jsonLd": "0.name" } }]. *)
Definition name_selector : FieldSelector.t :=
  selector_of (Some "0.name") None None None None.

Definition proto_recipe : list (string * FieldSelector.t) :=
  [("__proto__", name_selector)].

Definition name_field : ExtractedField.t :=
  field_of (JsString "Example Product") jsonLd "0.name".

(** ** Definitions used to state further properties *)

(** A segment with both brackets in which no [[digits]] group is found. *)
Definition malformed_brackets (part : string) : bool :=
  includes "[" part && includes "]" part
  && match scan_indices (substring part (indexOf "[" part) None) with
     | [] => true
     | _ :: _ => false
     end.

(** The fields of a recipe that resolve, in the order of the recipe. *)
Fixpoint resolved_entries (E : Engine) (data : StructuredDataPayload.t)
  (entries : list (string * FieldSelector.t))
  : list (string * ExtractedField.t) :=
  match entries with
  | [] => []
  | (name, selector) :: rest =>
      match resolution E data selector with
      | Some f => (name, f) :: resolved_entries E data rest
      | None => resolved_entries E data rest
      end
  end.

Fixpoint has_digit (s : string) : bool :=
  match s with
  | EmptyString => false
  | String c rest => is_digit c || has_digit rest
  end.

(** The selector with its standalone regex moved to the end of its
    transformation list, as a [regex] transformation without flags. *)
Definition regex_as_transformation (selector : FieldSelector.t)
  : FieldSelector.t :=
  match truthy (FieldSelector.regex selector) with
  | None => selector
  | Some re =>
      {| FieldSelector.jsonLd := FieldSelector.jsonLd selector;
         FieldSelector.metaTags := FieldSelector.metaTags selector;
         FieldSelector.dataLayers := FieldSelector.dataLayers selector;
         FieldSelector.microdata := FieldSelector.microdata selector;
         FieldSelector.customDataLayers :=
           FieldSelector.customDataLayers selector;
         FieldSelector.regex := None;
         FieldSelector.transformations :=
           Some (match FieldSelector.transformations selector with
                 | Some ts => ts
                 | None => []
                 end
                 ++ [{| FieldTransformation.type := FieldTransformation.regex;
                        FieldTransformation.pattern := Some re;
                        FieldTransformation.replacement := None;
                        FieldTransformation.flags := None |}]) |}
  end.

(** A recipe whose first field finds nothing in the example payload. *)
Definition two_field_recipe : list (string * FieldSelector.t) :=
  [("sku", selector_of (Some "0.sku") None None None None);
   ("productName", name_selector)].

(** An engine whose RegExp constructor rejects the pattern at hand. *)
Definition rejecting_engine : Engine := engine_matching (Throw SyntaxError).

Definition broken_regex_selector : FieldSelector.t :=
  selector_of (Some "0.name") None None (Some "(") None.

(** The last of the tags that carry a key. *)
Fixpoint last_meta (key : string) (tags : list DomNode) : option DomNode :=
  match tags with
  | [] => None
  | tag :: rest =>
      match last_meta key rest with
      | Some later => Some later
      | None =>
          match meta_key tag with
          | Some k => if k =? key then Some tag else None
          | None => None
          end
      end
  end.

(** A page, a browser and a window for closed examples: the browser matches
    the selector [meta] on the tag name and knows no other selector. *)
Definition meta_element (attrs : list (string * string)) : DomNode :=
  DomElement "META" attrs [].

Definition example_document : Document :=
  {| title := "Example Product";
     documentNodes :=
       [DomElement "HTML" []
          [DomElement "HEAD" []
             [meta_element [("property", "og:title"); ("content", "Old title")];
              meta_element [("name", "description")];
              meta_element [("property", "og:title");
                            ("name", "title");
                            ("content", "Example Product Page")];
              meta_element [("content", "orphan")]];
           DomElement "BODY" [] [DomText "Hello"]]] |}.

Definition example_browser : Browser :=
  {| matches := fun selector element =>
       (selector =? "meta") && (tagName_of element =? "META");
     querySelector := fun _ selector =>
       if selector =? "h1" then Normal None else Throw SyntaxError;
     JSON_parse := fun _ => Throw SyntaxError;
     host_length_positive := fun _ => Normal false |}.

Definition example_window : JsValue :=
  JsObject [("dataLayer",
             JsArray [JsObject [("product",
                                 JsObject [("name", JsString "Example")])]]);
            ("utag_data", JsNumber (number_of_Z 0));
            ("location",
             JsObject [("href", JsString "https://example.com/product")])].


(** A document with two JSON-LD blocks and a browser whose [JSON.parse]
    accepts the first text only. *)
Definition block_document : Document :=
  {| title := "";
     documentNodes :=
       [DomElement "SCRIPT" [("type", "application/ld+json")]
          [DomText "{ }"];
        DomElement "SCRIPT" [("type", "application/ld+json")]
          [DomText "{ oops"]] |}.

Definition block_browser : Browser :=
  {| matches := fun selector element =>
       (selector =? jsonLd_selector) && (tagName_of element =? "SCRIPT");
     querySelector := fun _ _ => Throw SyntaxError;
     JSON_parse := fun text =>
       if text =? "{ }" then Normal (JsObject []) else Throw SyntaxError;
     host_length_positive := fun _ => Normal false |}.

(** Induction on a document tree, with the property known for every child
    of an element. *)
Fixpoint DomNode_children_ind (P : DomNode -> Prop)
  (text_case : forall data, P (DomText data))
  (element_case : forall tag attrs children,
      Forall P children -> P (DomElement tag attrs children))
  (node : DomNode) : P node :=
  match node with
  | DomText data => text_case data
  | DomElement tag attrs children =>
      element_case tag attrs children
        ((fix each (l : list DomNode) : Forall P l :=
            match l with
            | [] => Forall_nil P
            | c :: rest =>
                Forall_cons c
                  (DomNode_children_ind P text_case element_case c)
                  (each rest)
            end) children)
  end.

(** The property elements met by a descent that does not enter an element
    which opens a scope of its own. *)
Fixpoint pruned_properties (B : Browser) (node : DomNode) : list DomNode :=
  match node with
  | DomText _ => []
  | DomElement _ _ children =>
      (if matches B "[itemprop]" node then [node] else [])
      ++ (if hasAttribute node "itemscope" then []
          else flat_map (pruned_properties B) children)
  end.

(** An entry of a microdata item: a non-empty string under a non-empty key
    other than [__proto__]. *)
Definition nonempty_string_entry (entry : string * JsValue) : Prop :=
  fst entry <> ""
  /\ fst entry <> "__proto__"
  /\ exists s, snd entry = JsString s /\ s <> "".

(** [selectors[key]] on the entries of the selectors of [extractCustomData]. *)
Fixpoint find_selector (key : string) (entries : list (string * string))
  : option string :=
  match entries with
  | [] => None
  | (k, selector) :: rest =>
      if k =? key then Some selector else find_selector key rest
  end.

(** What [extractCustomData] finds for one selector: the trimmed text of the
    first matching element or [null]; nothing when no element matches or the
    selector is rejected. *)
Definition found_text (B : Browser) (E : Engine) (document : Document)
  (selector : option string) : option JsValue :=
  match selector with
  | Some sel =>
      match querySelector B document sel with
      | Normal (Some element) => Some (trimmed_text_or_null E element)
      | _ => None
      end
  | None => None
  end.

(** [window.location?.href] *)
Definition href_of (E : Engine) (window : JsValue) : JsValue :=
  field E (field E window "location") "href".

(** A product page marked up with microdata, an offer nested in the product,
    and a browser that decides the two attribute selectors. *)
Definition microdata_document : Document :=
  {| title := "Shop";
     documentNodes :=
       [DomElement "DIV" [("itemscope", ""); ("itemtype", "Product")]
          [DomElement "H1" [("itemprop", "name")] [DomText " Lamp "];
           DomElement "DIV" [("itemprop", "offers"); ("itemscope", "")]
             [DomElement "META" [("itemprop", "price"); ("content", "12.50")]
                []];
           DomElement "SPAN" [("itemprop", "note")] []]] |}.

Definition attribute_browser : Browser :=
  {| matches := fun selector element =>
       if selector =? "[itemscope]" then hasAttribute element "itemscope"
       else if selector =? "[itemprop]" then hasAttribute element "itemprop"
       else false;
     querySelector := fun document selector =>
       if selector =? "h1"
       then Normal (find (fun e => tagName_of e =? "H1")
                      (flat_map elements_of (documentNodes document)))
       else if selector =? "h2" then Normal None
       else Throw SyntaxError;
     JSON_parse := fun _ => Throw SyntaxError;
     host_length_positive := fun _ => Normal false |}.

Definition blank_document : Document :=
  {| title := ""; documentNodes := [] |}.

(** A segment of a path as the specification reads it: a property name, or
    a name, which may be empty, followed by one index or more. *)
Inductive Segment : Type :=
| Name (name : string)
| Indexed (name : string) (indices : list string).

Definition segment_text (s : Segment) : string :=
  match s with
  | Name name => name
  | Indexed name dss => segment name dss
  end.

(** A name holds no '.' and is not taken for an indexed segment; the name
    before indices holds no '.' and no '[', and every index is a run of
    digits. *)
Definition well_written (s : Segment) : bool :=
  match s with
  | Name name => negb (includes "." name) && plain_name name
  | Indexed name dss =>
      negb (includes "." name) && negb (includes "[" name)
      && negb (Nat.eqb (List.length dss) 0) && forallb index_text dss
  end.

(** What a segment denotes under a cursor, read from the object alone: the
    property, or the element reached through the indices; [None] when it is
    missing. *)
Definition access (E : Engine) (cursor : JsValue) (s : Segment)
  : option JsValue :=
  match s with
  | Name name => property E cursor name
  | Indexed name dss => bracket_access E cursor name (map index_of_text dss)
  end.

Fixpoint access_all (E : Engine) (cursor : JsValue) (segments : list Segment)
  : option JsValue :=
  match segments with
  | [] => Some cursor
  | s :: rest =>
      match access E cursor s with
      | Some c => access_all E c rest
      | None => None
      end
  end.

(** The sentence on existing property names as the specification words it:
    on a root that is not empty and a path of property names that all exist,
    the evaluator returns a string. *)
Definition returns_a_string (E : Engine) (root : JsValue) (path : string)
  : Prop :=
  forall leaf,
    ToBoolean root = true ->
    path <> "" ->
    forallb plain_name (split "." path) = true ->
    walk E root (split "." path) = Some leaf ->
    exists s, evaluateStructuredDataPath E root path = Normal (Some s).

(** ** Strings and the index scanner *)

Lemma length_append (s t : string) :
  String.length (s ++ t) = (String.length s + String.length t)%nat.
Proof.
  induction s as [|c s IH]; simpl; [reflexivity|]. rewrite IH. reflexivity.
Qed.

Lemma string_take_append (s t : string) :
  string_take (String.length s) (s ++ t) = s.
Proof.
  induction s as [|c s IH]; simpl; [reflexivity|]. rewrite IH. reflexivity.
Qed.

Lemma string_drop_append (s t : string) :
  string_drop (String.length s) (s ++ t) = t.
Proof.
  induction s as [|c s IH]; simpl; [reflexivity|]. exact IH.
Qed.

Lemma string_take_all (s : string) : string_take (String.length s) s = s.
Proof.
  induction s as [|c s IH]; simpl; [reflexivity|]. rewrite IH. reflexivity.
Qed.

Lemma substring_head (s t : string) :
  substring (s ++ t) 0 (Some (Z.of_nat (String.length s))) = s.
Proof.
  unfold substring. cbv beta zeta. rewrite length_append.
  match goal with
  | |- string_take ?a (string_drop ?b _) = _ =>
      replace a with (String.length s) by lia;
      replace b with 0%nat by lia
  end.
  simpl. apply string_take_append.
Qed.

Lemma substring_tail (s t : string) :
  substring (s ++ t) (Z.of_nat (String.length s)) None = t.
Proof.
  unfold substring. cbv beta zeta. rewrite length_append.
  match goal with
  | |- string_take ?a (string_drop ?b _) = _ =>
      replace a with (String.length t) by lia;
      replace b with (String.length s) by lia
  end.
  rewrite string_drop_append. apply string_take_all.
Qed.

Lemma includes_append (c : ascii) (s t : string) :
  includes c (s ++ t) = includes c s || includes c t.
Proof.
  induction s as [|a s IH]; simpl; [reflexivity|].
  rewrite IH. apply orb_assoc.
Qed.

Lemma indexOf_append_fresh (c : ascii) (s t : string) :
  includes c s = false ->
  indexOf c (s ++ String c t) = Z.of_nat (String.length s).
Proof.
  induction s as [|a s IH]; simpl; intros H.
  - rewrite Ascii.eqb_refl. reflexivity.
  - apply orb_false_iff in H. destruct H as [Ha Hs].
    rewrite Ha, (IH Hs).
    destruct (Z.ltb_spec (Z.of_nat (String.length s)) 0); lia.
Qed.

Lemma is_digit_not_open (c : ascii) :
  is_digit c = true -> Ascii.eqb c "[" = false.
Proof.
  intros H. destruct (Ascii.eqb_spec c "[") as [Heq|_]; [|reflexivity].
  subst c. vm_compute in H. discriminate.
Qed.

Lemma digits_value_total (ds : string) :
  forall n, all_digits ds = true -> exists v, digits_value n ds = Some v.
Proof.
  induction ds as [|c ds IH]; simpl; intros n H.
  - exists n. reflexivity.
  - apply andb_true_iff in H. destruct H as [Hc Hds].
    rewrite Hc. apply IH. exact Hds.
Qed.

Lemma scan_digits (ds : string) :
  forall n rest v,
    all_digits ds = true ->
    digits_value n ds = Some v ->
    scan_indices_from (Opened (Some n)) (ds ++ String "]" rest)
    = v :: scan_indices_from Outside rest.
Proof.
  induction ds as [|c ds IH]; intros n rest v Hall Hv.
  - simpl in Hv. inversion Hv; subst. reflexivity.
  - simpl in Hall. apply andb_true_iff in Hall. destruct Hall as [Hc Hds].
    simpl in Hv. rewrite Hc in Hv.
    cbn [append scan_indices_from].
    rewrite (is_digit_not_open c Hc), Hc.
    apply IH; assumption.
Qed.

Lemma scan_brackets (dss : list string) :
  forall st,
    forallb index_text dss = true ->
    scan_indices_from st (brackets dss) = map index_of_text dss.
Proof.
  induction dss as [|ds dss IH]; intros st H; [reflexivity|].
  cbn [forallb] in H. apply andb_true_iff in H. destruct H as [Hds Hrest].
  unfold index_text in Hds. apply andb_true_iff in Hds.
  destruct Hds as [Hne Hall].
  destruct ds as [|c ds]; [discriminate Hne|].
  cbn [all_digits] in Hall. apply andb_true_iff in Hall.
  destruct Hall as [Hc Hall].
  destruct (digits_value_total ds (10 * 0 + digit_value c)%N Hall) as [v Hv].
  cbn [brackets map append scan_indices_from].
  rewrite Ascii.eqb_refl.
  rewrite (is_digit_not_open c Hc), Hc.
  rewrite (scan_digits ds _ _ v Hall Hv).
  rewrite (IH Outside Hrest).
  unfold index_of_text. cbn [digits_value]. rewrite Hc, Hv. reflexivity.
Qed.

Lemma segment_includes (name : string) (dss : list string) :
  dss <> [] ->
  includes "[" (segment name dss) && includes "]" (segment name dss) = true.
Proof.
  intros Hne. destruct dss as [|ds dss]; [contradiction|].
  unfold segment. cbn [brackets append].
  rewrite !includes_append. cbn [includes].
  rewrite !includes_append. cbn [includes].
  rewrite !Ascii.eqb_refl. cbn [orb].
  rewrite !orb_true_r. reflexivity.
Qed.

Lemma split_single (c : ascii) (s : string) :
  includes c s = false -> split c s = [s].
Proof.
  induction s as [|a s IH]; intros H; [reflexivity|].
  cbn [includes] in H. apply orb_false_iff in H. destruct H as [Ha Hs].
  cbn [split]. rewrite Ha, (IH Hs). reflexivity.
Qed.

Lemma split_append (c : ascii) (s t : string) :
  includes c s = false -> split c (s ++ String c t) = s :: split c t.
Proof.
  induction s as [|a s IH]; intros H.
  - cbn [append split]. rewrite Ascii.eqb_refl. reflexivity.
  - cbn [includes] in H. apply orb_false_iff in H. destruct H as [Ha Hs].
    cbn [append split]. rewrite Ha, (IH Hs). reflexivity.
Qed.

Lemma is_digit_not_dot (c : ascii) :
  is_digit c = true -> Ascii.eqb c "." = false.
Proof.
  intros H. destruct (Ascii.eqb_spec c ".") as [Heq|_]; [|reflexivity].
  subst c. vm_compute in H. discriminate.
Qed.

Lemma all_digits_no_dot (ds : string) :
  all_digits ds = true -> includes "." ds = false.
Proof.
  induction ds as [|c ds IH]; intros H; [reflexivity|].
  cbn [all_digits] in H. apply andb_true_iff in H. destruct H as [Hc Hds].
  cbn [includes]. rewrite (is_digit_not_dot c Hc), (IH Hds). reflexivity.
Qed.

Lemma segment_no_dot (name : string) (dss : list string) :
  includes "." name = false ->
  forallb index_text dss = true ->
  includes "." (segment name dss) = false.
Proof.
  intros Hname Hdss. unfold segment. rewrite includes_append, Hname.
  cbn [orb]. induction dss as [|ds dss IH]; [reflexivity|].
  cbn [forallb] in Hdss. apply andb_true_iff in Hdss.
  destruct Hdss as [Hds Hrest].
  unfold index_text in Hds. apply andb_true_iff in Hds.
  destruct Hds as [_ Hall].
  cbn [brackets append includes]. rewrite includes_append.
  cbn [includes]. rewrite (all_digits_no_dot ds Hall), (IH Hrest).
  reflexivity.
Qed.

Lemma segment_not_empty (name : string) (dss : list string) :
  dss <> [] -> segment name dss <> "".
Proof.
  intros Hne Heq. destruct dss as [|ds dss]; [contradiction|].
  unfold segment in Heq. destruct name; discriminate Heq.
Qed.

Lemma append_not_empty (s t : string) : s <> "" -> (s ++ t)%string <> "".
Proof. destruct s; [contradiction|discriminate]. Qed.

(** ** The path evaluator *)

Section EvaluatorFacts.

Variable E : Engine.

Lemma ToBoolean_not_nullish (v : JsValue) :
  ToBoolean v = true -> is_nullish v = false.
Proof. destruct v; simpl; intros H; congruence. Qed.

Lemma Get_normal (v : JsValue) (key : string) :
  is_nullish v = false -> exists x, Get E v key = Normal x.
Proof.
  destruct v; simpl; intros H; try discriminate; eauto.
  - destruct (key =? "length"); eauto.
    destruct (canonical_index key); eauto.
    destruct (get (N.to_nat n) s); eauto.
  - destruct (key =? "length"); eauto.
    destruct (canonical_index key); eauto.
  - destruct (own_property key props); eauto.
Qed.

Lemma apply_indices_chain (indices : list N) :
  forall cur,
    apply_indices E cur indices = Normal (step_of (index_chain E cur indices)).
Proof.
  induction indices as [|i rest IH]; intros cur; [reflexivity|].
  cbn [apply_indices index_chain].
  destruct cur; try reflexivity.
  - cbn [isArray Get_index bind element].
    destruct (nth_error elems (N.to_nat i)) as [x|] eqn:Hn.
    + rewrite (nth_error_nth _ _ JsUndefined Hn).
      destruct (is_nullish x); [reflexivity|apply IH].
    + apply nth_error_None in Hn.
      rewrite (nth_overflow _ JsUndefined Hn). reflexivity.
  - cbn [isArray element]. destruct (host_isArray E h); [|reflexivity].
    cbn [Get_index Get bind].
    destruct (is_nullish _); [reflexivity|apply IH].
Qed.

Lemma eval_part_segment (cur : JsValue) (name : string) (dss : list string) :
  is_nullish cur = false ->
  includes "[" name = false ->
  dss <> [] ->
  forallb index_text dss = true ->
  eval_part E cur (segment name dss)
  = Normal (step_of (bracket_access E cur name (map index_of_text dss))).
Proof.
  intros Hcur Hname Hne Hdss.
  unfold eval_part. rewrite (segment_includes name dss Hne).
  destruct dss as [|ds dss]; [contradiction|].
  assert (Hseg : segment name (ds :: dss)
                 = (name ++ String "[" (ds ++ String "]" (brackets dss)))%string)
    by reflexivity.
  rewrite Hseg, (indexOf_append_fresh _ _ _ Hname).
  rewrite substring_head, substring_tail.
  change (String "[" (ds ++ String "]" (brackets dss))) with (brackets (ds :: dss)).
  unfold scan_indices. rewrite (scan_brackets _ Outside Hdss).
  cbn [map]. unfold bracket_access.
  destruct (name =? "") eqn:Hn; cbn [negb].
  - apply apply_indices_chain.
  - unfold property. destruct (Get_normal cur name Hcur) as [x Hx].
    rewrite Hx. cbn [bind].
    destruct (is_nullish x); [reflexivity|apply apply_indices_chain].
Qed.

Lemma eval_parts_caught (parts : list string) :
  forall cur,
    is_nullish cur = false ->
    try_catch (eval_parts E cur parts) (fun _ => Normal None)
    = Normal (match resolve E cur parts with
              | Some leaf => stringified E leaf
              | None => None
              end).
Proof.
  induction parts as [|part rest IH]; intros cur Hcur.
  - cbn [eval_parts resolve]. rewrite Hcur. unfold stringified.
    destruct (ToString E cur); reflexivity.
  - cbn [eval_parts resolve]. unfold advance.
    destruct (eval_part E cur part) as [[|c]|e]; cbn [bind try_catch];
      try reflexivity.
    destruct (is_nullish c) eqn:Hc; [reflexivity|apply IH; exact Hc].
Qed.

Lemma evaluate_resolve (root : JsValue) (path : string) :
  ToBoolean root = true ->
  path <> "" ->
  evaluateStructuredDataPath E root path
  = Normal (match resolve E root (split "." path) with
            | Some leaf => stringified E leaf
            | None => None
            end).
Proof.
  intros Hroot Hpath. unfold evaluateStructuredDataPath, evaluate_body.
  rewrite Hroot. cbn [ToBoolean negb orb].
  apply String.eqb_neq in Hpath. rewrite Hpath. cbn [negb].
  apply eval_parts_caught, ToBoolean_not_nullish, Hroot.
Qed.

Lemma evaluate_never_throws (root : JsValue) (path : string) :
  exists r, evaluateStructuredDataPath E root path = Normal r.
Proof.
  unfold evaluateStructuredDataPath.
  destruct (evaluate_body E root path) as [r|e]; cbn [try_catch]; eauto.
Qed.

Lemma evaluate_empty (root : JsValue) (path : string) :
  ToBoolean root = false \/ path = "" ->
  evaluateStructuredDataPath E root path = Normal None.
Proof.
  intros H. unfold evaluateStructuredDataPath, evaluate_body.
  destruct H as [H|H].
  - rewrite H. reflexivity.
  - subst path. cbn [ToBoolean String.eqb negb]. rewrite orb_true_r. reflexivity.
Qed.

Lemma advance_plain (cur : JsValue) (part : string) :
  plain_name part = true -> advance E cur part = property E cur part.
Proof.
  unfold plain_name, advance, eval_part, property. intros H.
  apply negb_true_iff in H. rewrite H.
  destruct (Get E cur part) as [x|e]; reflexivity.
Qed.

Lemma resolve_plain (parts : list string) :
  forall cur,
    forallb plain_name parts = true -> resolve E cur parts = walk E cur parts.
Proof.
  induction parts as [|part rest IH]; intros cur H; [reflexivity|].
  cbn [forallb] in H. apply andb_true_iff in H. destruct H as [Hp Hrest].
  cbn [resolve walk]. rewrite (advance_plain cur part Hp).
  destruct (property E cur part); [apply IH; exact Hrest|reflexivity].
Qed.

Lemma resolve_app (before after : list string) :
  forall cur,
    resolve E cur (before ++ after)
    = match resolve E cur before with
      | Some c => resolve E c after
      | None => None
      end.
Proof.
  induction before as [|part rest IH]; intros cur; [reflexivity|].
  cbn [app resolve]. destruct (advance E cur part); [apply IH|reflexivity].
Qed.

End EvaluatorFacts.

Lemma index_chain_not_nullish (E : Engine) (indices : list N) :
  forall cur c,
    is_nullish cur = false ->
    index_chain E cur indices = Some c ->
    is_nullish c = false.
Proof.
  induction indices as [|i rest IH]; intros cur c Hcur H.
  - inversion H; subst. exact Hcur.
  - cbn [index_chain] in H.
    destruct (element E cur i) as [x|] eqn:Hx; [|discriminate].
    apply (IH x c); [|exact H].
    unfold element in Hx. destruct cur; try discriminate.
    + destruct (nth_error elems (N.to_nat i)) as [y|]; [|discriminate].
      destruct (is_nullish y) eqn:Hy; [discriminate|].
      inversion Hx; subst. exact Hy.
    + destruct (host_isArray E h); [|discriminate].
      cbv zeta in Hx.
      match type of Hx with
      | context [is_nullish ?t] => destruct (is_nullish t) eqn:Hy
      end; [discriminate|].
      inversion Hx; subst. exact Hy.
Qed.

Lemma property_not_nullish (E : Engine) (cur c : JsValue) (name : string) :
  property E cur name = Some c -> is_nullish c = false.
Proof.
  unfold property. destruct (Get E cur name) as [x|e]; [|discriminate].
  destruct (is_nullish x) eqn:Hx; [discriminate|].
  intros H. inversion H; subst. exact Hx.
Qed.

Lemma advance_segment (E : Engine) (cur : JsValue) (name : string)
  (dss : list string) :
  is_nullish cur = false ->
  includes "[" name = false ->
  dss <> [] ->
  forallb index_text dss = true ->
  advance E cur (segment name dss)
  = bracket_access E cur name (map index_of_text dss).
Proof.
  intros Hcur Hname Hne Hdss. unfold advance.
  rewrite (eval_part_segment E cur name dss Hcur Hname Hne Hdss).
  destruct (bracket_access E cur name (map index_of_text dss)) as [c|] eqn:Hb;
    [|reflexivity].
  cbn [step_of].
  assert (Hc : is_nullish c = false).
  { unfold bracket_access in Hb. destruct (name =? "").
    - exact (index_chain_not_nullish E _ cur c Hcur Hb).
    - destruct (property E cur name) as [x|] eqn:Hx; [|discriminate].
      exact (index_chain_not_nullish E _ x c (property_not_nullish E _ _ _ Hx) Hb). }
  rewrite Hc. reflexivity.
Qed.

Lemma evaluate_segment (E : Engine) (root : JsValue) (name : string)
  (dss : list string) :
  ToBoolean root = true ->
  includes "[" name = false ->
  includes "." name = false ->
  dss <> [] ->
  forallb index_text dss = true ->
  evaluateStructuredDataPath E root (segment name dss)
  = Normal (match bracket_access E root name (map index_of_text dss) with
            | Some leaf => stringified E leaf
            | None => None
            end).
Proof.
  intros Hroot Hname Hdot Hne Hdss.
  rewrite (evaluate_resolve E root _ Hroot (segment_not_empty name dss Hne)).
  rewrite (split_single _ _ (segment_no_dot name dss Hdot Hdss)).
  cbn [resolve].
  rewrite (advance_segment E root name dss
             (ToBoolean_not_nullish root Hroot) Hname Hne Hdss).
  destruct (bracket_access E root name (map index_of_text dss)); reflexivity.
Qed.

Lemma evaluate_segment_then (E : Engine) (root : JsValue) (name : string)
  (dss : list string) (rest : string) :
  ToBoolean root = true ->
  includes "[" name = false ->
  includes "." name = false ->
  dss <> [] ->
  forallb index_text dss = true ->
  evaluateStructuredDataPath E root (segment name dss ++ String "." rest)
  = Normal (match bracket_access E root name (map index_of_text dss) with
            | Some c =>
                match resolve E c (split "." rest) with
                | Some leaf => stringified E leaf
                | None => None
                end
            | None => None
            end).
Proof.
  intros Hroot Hname Hdot Hne Hdss.
  rewrite (evaluate_resolve E root _ Hroot
             (append_not_empty _ _ (segment_not_empty name dss Hne))).
  rewrite (split_append _ _ _ (segment_no_dot name dss Hdot Hdss)).
  cbn [resolve].
  rewrite (advance_segment E root name dss
             (ToBoolean_not_nullish root Hroot) Hname Hne Hdss).
  destruct (bracket_access E root name (map index_of_text dss)); reflexivity.
Qed.

Lemma apply_indices_out_of_range (E : Engine) (elems : list JsValue) (i : N)
  (rest : list N) :
  (List.length elems <= N.to_nat i)%nat ->
  apply_indices E (JsArray elems) (i :: rest) = Normal Return_null.
Proof.
  intros H. cbn [apply_indices isArray Get_index bind].
  rewrite (nth_overflow _ JsUndefined H). reflexivity.
Qed.

Lemma apply_indices_not_array (E : Engine) (cur : JsValue) (i : N)
  (rest : list N) :
  isArray E cur = false ->
  apply_indices E cur (i :: rest) = Normal Return_null.
Proof.
  intros H. cbn [apply_indices]. rewrite H. reflexivity.
Qed.

(** C2.  Bracket semantics of the path evaluator.  The path is split on '.'
    and its segments are applied to the cursor from left to right; a segment
    [name[d1]...[dk]] (k >= 1, each [d] a run of digits) advances into the
    property [name] when the name is not empty and then applies the indices
    [d1], ..., [dk] in that order, each to a sequence; an index beyond the end
    of the sequence, or a cursor that is not a sequence, makes the evaluator
    return null.  The three examples of the specification evaluate as
    stated. *)
Theorem bracket_semantics (E : Engine) :
  (forall root path,
      ToBoolean root = true ->
      path <> "" ->
      evaluateStructuredDataPath E root path
      = Normal (match resolve E root (split "." path) with
                | Some leaf => stringified E leaf
                | None => None
                end))
  /\ (forall cur name dss,
         is_nullish cur = false ->
         includes "[" name = false ->
         dss <> [] ->
         forallb index_text dss = true ->
         advance E cur (segment name dss)
         = bracket_access E cur name (map index_of_text dss))
  /\ (forall root name dss,
         ToBoolean root = true ->
         includes "[" name = false ->
         includes "." name = false ->
         dss <> [] ->
         forallb index_text dss = true ->
         evaluateStructuredDataPath E root (segment name dss)
         = Normal (match bracket_access E root name (map index_of_text dss) with
                   | Some leaf => stringified E leaf
                   | None => None
                   end))
  /\ (forall root name dss rest,
         ToBoolean root = true ->
         includes "[" name = false ->
         includes "." name = false ->
         dss <> [] ->
         forallb index_text dss = true ->
         evaluateStructuredDataPath E root
           (segment name dss ++ String "." rest)
         = Normal (match bracket_access E root name (map index_of_text dss) with
                   | Some c =>
                       match resolve E c (split "." rest) with
                       | Some leaf => stringified E leaf
                       | None => None
                       end
                   | None => None
                   end))
  /\ (forall elems i rest,
         (List.length elems <= N.to_nat i)%nat ->
         apply_indices E (JsArray elems) (i :: rest) = Normal Return_null)
  /\ (forall cur i rest,
         isArray E cur = false ->
         apply_indices E cur (i :: rest) = Normal Return_null)
  /\ evaluateStructuredDataPath E deep_data "[0][0][0].value"
     = Normal (Some "deep")
  /\ evaluateStructuredDataPath E array_data "array[0]" = Normal (Some "item1")
  /\ evaluateStructuredDataPath E array_data "array[10]" = Normal None.
Proof.
  split; [exact (evaluate_resolve E)|].
  split; [exact (advance_segment E)|].
  split; [exact (evaluate_segment E)|].
  split; [exact (evaluate_segment_then E)|].
  split; [exact (apply_indices_out_of_range E)|].
  split; [exact (apply_indices_not_array E)|].
  repeat split; reflexivity.
Qed.

Lemma bracket_semantics_witness :
  evaluateStructuredDataPath plain_engine array_data "array[0]"
  = Normal (Some "item1")
  /\ advance plain_engine array_data (segment "array" ["0"])
     = Some (JsString "item1")
  /\ evaluateStructuredDataPath plain_engine deep_data "[0][0][0]"
     = Normal (Some "[object Object]")
  /\ evaluateStructuredDataPath plain_engine deep_data "[0][0][0].value"
     = Normal (Some "deep")
  /\ apply_indices plain_engine (JsArray [JsString "item1"]) [10%N]
     = Normal Return_null
  /\ apply_indices plain_engine (JsString "item1") [0%N] = Normal Return_null.
Proof.
  destruct (bracket_semantics plain_engine) as (H1 & H2 & H3 & H4 & H5 & H6 & _).
  split.
  { rewrite (H1 array_data "array[0]"); [reflexivity|reflexivity|discriminate]. }
  split.
  { rewrite (H2 array_data "array" ["0"]);
      [reflexivity|reflexivity|reflexivity|discriminate|reflexivity]. }
  split.
  { apply (H3 deep_data "" ["0"; "0"; "0"]);
      [reflexivity|reflexivity|reflexivity|discriminate|reflexivity]. }
  split.
  { apply (H4 deep_data "" ["0"; "0"; "0"] "value");
      [reflexivity|reflexivity|reflexivity|discriminate|reflexivity]. }
  split.
  { apply H5. simpl. lia. }
  apply H6. reflexivity.
Defined.

Lemma access_not_nullish (E : Engine) (cur c : JsValue) (s : Segment) :
  is_nullish cur = false ->
  access E cur s = Some c ->
  is_nullish c = false.
Proof.
  intros Hcur H. destruct s as [name|name dss]; cbn [access] in H.
  - exact (property_not_nullish E _ _ _ H).
  - unfold bracket_access in H. destruct (name =? "").
    + exact (index_chain_not_nullish E _ cur c Hcur H).
    + destruct (property E cur name) as [x|] eqn:Hx; [|discriminate].
      exact (index_chain_not_nullish E _ x c
               (property_not_nullish E _ _ _ Hx) H).
Qed.

Lemma advance_access (E : Engine) (cur : JsValue) (s : Segment) :
  is_nullish cur = false ->
  well_written s = true ->
  advance E cur (segment_text s) = access E cur s.
Proof.
  intros Hcur Hs. destruct s as [name|name dss];
    cbn [well_written segment_text access] in *.
  - apply andb_true_iff in Hs. destruct Hs as [_ Hplain].
    exact (advance_plain E cur name Hplain).
  - apply andb_true_iff in Hs. destruct Hs as [Hs Hidx].
    apply andb_true_iff in Hs. destruct Hs as [Hs Hlen].
    apply andb_true_iff in Hs. destruct Hs as [_ Hopen].
    apply negb_true_iff in Hopen.
    apply advance_segment; [exact Hcur|exact Hopen| |exact Hidx].
    intros Hnil. subst dss. discriminate Hlen.
Qed.

Lemma resolve_access_all (E : Engine) (segments : list Segment) :
  forall cur,
    is_nullish cur = false ->
    forallb well_written segments = true ->
    resolve E cur (map segment_text segments) = access_all E cur segments.
Proof.
  induction segments as [|s rest IH]; intros cur Hcur Hall; [reflexivity|].
  cbn [forallb] in Hall. apply andb_true_iff in Hall.
  destruct Hall as [Hs Hrest].
  cbn [map resolve access_all]. rewrite (advance_access E cur s Hcur Hs).
  destruct (access E cur s) as [c|] eqn:Hc; [|reflexivity].
  exact (IH c (access_not_nullish E cur c s Hcur Hc) Hrest).
Qed.

(** C3, counterexample.  On the object [{a: {toString: "x"}}] the path [a]
    names a property that exists, yet the evaluator returns null and no
    string: [String] faults on the leaf, whose [toString] is not callable,
    and the fault is caught. *)
Lemma unprintable_leaf_gives_null :
  ~ returns_a_string plain_engine unprintable_data "a".
Proof.
  intros H.
  destruct (H (JsObject [("toString", JsString "x")])
              eq_refl ltac:(discriminate) eq_refl eq_refl) as [s Hs].
  vm_compute in Hs. discriminate Hs.
Qed.

(** C3, as amended.  Totality and safety of the path evaluator.  The
    evaluator returns normally on every root and path, with a string or
    null.  A falsy root (null, undefined, empty) or the empty path gives
    null.  On a truthy root and a path of plain property names that all
    exist, the result is the string form of the leaf whenever the leaf
    converts to a string, as strings, booleans and numbers always do, by
    their string representation; a leaf whose conversion faults gives null,
    the fault being caught.  A path one of whose segments, a property or an
    indexed element, is missing from the object reached so far gives null,
    whatever follows that segment. *)
Theorem evaluator_total_and_safe (E : Engine) (root : JsValue) (path : string) :
  (exists r : option string, evaluateStructuredDataPath E root path = Normal r)
  /\ (ToBoolean root = false \/ path = "" ->
      evaluateStructuredDataPath E root path = Normal None)
  /\ (forall leaf,
         ToBoolean root = true ->
         path <> "" ->
         forallb plain_name (split "." path) = true ->
         walk E root (split "." path) = Some leaf ->
         (forall s,
             ToString E leaf = Normal s ->
             evaluateStructuredDataPath E root path = Normal (Some s))
         /\ (forall e,
                ToString E leaf = Throw e ->
                evaluateStructuredDataPath E root path = Normal None))
  /\ (forall b n s,
         ToString E (JsBoolean b) = Normal (if b then "true" else "false")
         /\ ToString E (JsNumber n) = Normal (Number_toString E n)
         /\ ToString E (JsString s) = Normal s)
  /\ (forall before seg after c,
         forallb well_written before = true ->
         well_written seg = true ->
         split "." path = map segment_text before ++ segment_text seg :: after ->
         access_all E root before = Some c ->
         access E c seg = None ->
         evaluateStructuredDataPath E root path = Normal None).
Proof.
  split; [apply evaluate_never_throws|].
  split; [apply evaluate_empty|].
  split.
  { intros leaf Hroot Hpath Hplain Hwalk.
    rewrite (evaluate_resolve E root path Hroot Hpath).
    rewrite (resolve_plain E _ root Hplain), Hwalk. unfold stringified.
    split; [intros s Hs|intros e He].
    - rewrite Hs. reflexivity.
    - rewrite He. reflexivity. }
  split; [intros b n s; repeat split; reflexivity|].
  intros before seg after c Hbefore Hseg Hsplit Hreach Hmiss.
  destruct (ToBoolean root) eqn:Hroot;
    [|apply evaluate_empty; left; exact Hroot].
  destruct (String.eqb_spec path "") as [Hpath|Hpath];
    [apply evaluate_empty; right; exact Hpath|].
  pose proof (ToBoolean_not_nullish root Hroot) as Hnn.
  rewrite (evaluate_resolve E root path Hroot Hpath).
  rewrite Hsplit, resolve_app.
  rewrite (resolve_access_all E before root Hnn Hbefore), Hreach.
  cbn [resolve].
  assert (Hc : is_nullish c = false).
  { clear - Hnn Hreach. revert root Hnn Hreach.
    induction before as [|s rest IH]; intros root Hnn Hreach.
    - inversion Hreach; subst. exact Hnn.
    - cbn [access_all] in Hreach.
      destruct (access E root s) as [x|] eqn:Hx; [|discriminate].
      exact (IH x (access_not_nullish E root x s Hnn Hx) Hreach). }
  rewrite (advance_access E c seg Hc Hseg), Hmiss. reflexivity.
Qed.

Lemma evaluator_total_and_safe_witness :
  evaluateStructuredDataPath plain_engine JsNull "array" = Normal None
  /\ evaluateStructuredDataPath plain_engine array_data "array.1"
     = Normal (Some "item2")
  /\ evaluateStructuredDataPath plain_engine unprintable_data "a"
     = Normal None
  /\ evaluateStructuredDataPath plain_engine array_data "array.7.name"
     = Normal None
  /\ evaluateStructuredDataPath plain_engine array_data "array[7]"
     = Normal None.
Proof.
  split.
  { apply (evaluator_total_and_safe plain_engine JsNull "array").
    left. reflexivity. }
  split.
  { apply (proj1 (proj1 (proj2 (proj2
             (evaluator_total_and_safe plain_engine array_data "array.1")))
             (JsString "item2")
             eq_refl ltac:(discriminate) eq_refl eq_refl)).
    reflexivity. }
  split.
  { apply (proj2 (proj1 (proj2 (proj2
             (evaluator_total_and_safe plain_engine unprintable_data "a")))
             (JsObject [("toString", JsString "x")])
             eq_refl ltac:(discriminate) eq_refl eq_refl) TypeError).
    reflexivity. }
  split.
  { apply (proj2 (proj2 (proj2 (proj2
             (evaluator_total_and_safe plain_engine array_data
                "array.7.name"))))
             [Name "array"] (Name "7") ["name"]
             (JsArray [JsString "item1"; JsString "item2"; JsString "item3"]));
      reflexivity. }
  apply (proj2 (proj2 (proj2 (proj2
           (evaluator_total_and_safe plain_engine array_data "array[7]"))))
           [] (Indexed "array" ["7"]) [] array_data);
    reflexivity.
Defined.

(** The fault of [String] on an object without a usable [toString] is raised
    inside the [try] block and caught: the evaluator returns null. *)
Example fault_is_caught (E : Engine) :
  evaluate_body E unprintable_data "a" = Throw TypeError
  /\ evaluateStructuredDataPath E unprintable_data "a" = Normal None.
Proof. split; reflexivity. Qed.

(** The other examples of the specification. *)
Example numeric_leaf_is_stringified :
  evaluateStructuredDataPath plain_engine complex_data "complex.items[1].price"
  = Normal (Some "20").
Proof. vm_compute. reflexivity. Qed.

Example colon_key_is_one_segment (E : Engine) :
  evaluateStructuredDataPath E
    (JsObject [("property:with:colons", JsString "special value")])
    "property:with:colons"
  = Normal (Some "special value").
Proof. reflexivity. Qed.

Example array_prints_joined (E : Engine) :
  evaluateStructuredDataPath E array_data "array"
  = Normal (Some "item1,item2,item3").
Proof. reflexivity. Qed.

(** ** The transformation pipeline *)

Section PipelineFacts.

Variable E : Engine.

Lemma typeof_string (v : JsValue) :
  typeof E v = "string" <-> is_string v = true.
Proof.
  destruct v; simpl; split; intros H; try discriminate; try reflexivity.
  destruct (host_isCallable E h); discriminate.
Qed.

Lemma not_typeof_string (v : JsValue) :
  typeof E v <> "string" -> is_string v = false.
Proof.
  intros H. destruct (is_string v) eqn:Hs; [|reflexivity].
  exfalso. apply H, typeof_string, Hs.
Qed.

Lemma applyTransformations_each (v : JsValue)
  (ts : list FieldTransformation.t) :
  applyTransformations E v (Some ts) = apply_each E ts v.
Proof. destruct ts; reflexivity. Qed.

Lemma apply_each_app (before after : list FieldTransformation.t) :
  forall v,
    apply_each E (before ++ after) v
    = (w <- apply_each E before v ;; apply_each E after w).
Proof.
  induction before as [|t rest IH]; intros v; [reflexivity|].
  cbn [app apply_each].
  destruct (apply_transformation E t v) as [r|e]; cbn [bind];
    [apply IH|reflexivity].
Qed.

Lemma apply_transformation_non_string (t : FieldTransformation.t)
  (v : JsValue) :
  is_string v = false -> apply_transformation E t v = Normal v.
Proof.
  intros H. unfold apply_transformation.
  destruct (FieldTransformation.type t);
    try (destruct v; try reflexivity; discriminate H).
  - destruct (truthy (FieldTransformation.pattern t));
      destruct v; try reflexivity; discriminate H.
  - destruct (truthy (FieldTransformation.pattern t));
      destruct (truthy (FieldTransformation.replacement t));
      destruct v; try reflexivity; discriminate H.
Qed.

Lemma apply_each_non_string (ts : list FieldTransformation.t) (v : JsValue) :
  is_string v = false -> apply_each E ts v = Normal v.
Proof.
  intros H. induction ts as [|t rest IH]; [reflexivity|].
  cbn [apply_each]. rewrite (apply_transformation_non_string t v H).
  exact IH.
Qed.

Lemma includes_strip (s : string) (c : ascii) :
  includes c (strip_non_numeric s) = is_numeric_char c && includes c s.
Proof.
  induction s as [|a s IH]; cbn [strip_non_numeric includes].
  - rewrite andb_false_r. reflexivity.
  - destruct (is_numeric_char a) eqn:Ha; cbn [includes]; rewrite IH.
    + destruct (Ascii.eqb_spec a c) as [Heq|Hne]; cbn [orb].
      * subst a. rewrite Ha. reflexivity.
      * reflexivity.
    + destruct (Ascii.eqb_spec a c) as [Heq|Hne]; cbn [orb].
      * subst a. rewrite Ha. reflexivity.
      * reflexivity.
Qed.

Lemma apply_selector_regex_non_string (selector : FieldSelector.t)
  (v : JsValue) :
  is_string v = false -> apply_selector_regex E selector v = Normal v.
Proof.
  intros H. unfold apply_selector_regex.
  destruct (truthy (FieldSelector.regex selector));
    destruct v; try reflexivity; discriminate H.
Qed.

End PipelineFacts.

(** ** The selector resolver *)

Section ResolverFacts.

Variable E : Engine.
Variable data : StructuredDataPayload.t.
Variable selector : FieldSelector.t.

Lemma finish_post_process (m : Method.t) (path r : string) :
  finish E selector m path r
  = (v <- post_process E selector r ;;
     Normal (Some {| ExtractedField.value := v;
                     ExtractedField.source := Method.source m;
                     ExtractedField.path := path;
                     ExtractedField.confidence := Method.confidence m |})).
Proof.
  unfold finish, post_process.
  destruct (applyTransformations E (JsString r)
              (FieldSelector.transformations selector)); reflexivity.
Qed.

Lemma try_methods_first_hit (ms : list Method.t) :
  Forall standard ms ->
  try_methods E data selector ms
  = match first_hit E data selector (map Method.source ms) with
    | None => Normal None
    | Some (src, (path, raw)) =>
        v <- post_process E selector raw ;;
        Normal (Some (field_of v src path))
    end.
Proof.
  induction ms as [|m rest IH]; intros Hstd; [reflexivity|].
  inversion Hstd as [|m' rest' [Hkey Hconf] Hrest]; subst.
  cbn [try_methods map first_hit]. unfold hit. rewrite Hkey.
  destruct (truthy (selector_path selector (Method.source m))) as [path|];
    [|exact (IH Hrest)].
  destruct (ToBoolean (payload_source data (Method.source m)));
    [|exact (IH Hrest)].
  unfold extractFromSource.
  destruct (evaluate_never_throws E (payload_source data (Method.source m)) path)
    as [r Hr].
  rewrite Hr. cbn [bind].
  destruct r as [r|]; [|exact (IH Hrest)].
  destruct (r =? "Not found"); cbn [negb]; [exact (IH Hrest)|].
  rewrite finish_post_process, Hconf. reflexivity.
Qed.

Lemma methods_standard : Forall standard methods.
Proof. repeat constructor. Qed.

Lemma processSelector_first_hit :
  processSelector E data selector
  = match first_hit E data selector priority with
    | None => Normal None
    | Some (src, (path, raw)) =>
        v <- post_process E selector raw ;;
        Normal (Some (field_of v src path))
    end.
Proof. exact (try_methods_first_hit methods methods_standard). Qed.


Lemma first_hit_none (srcs : list SourceName) :
  (forall s, In s srcs -> hit E data selector s = None) ->
  first_hit E data selector srcs = None.
Proof.
  induction srcs as [|s0 rest IH]; intros H; [reflexivity|].
  cbn [first_hit]. rewrite (H s0 (or_introl eq_refl)).
  apply IH. intros s Hs. apply H. right. exact Hs.
Qed.

End ResolverFacts.

Lemma group_or_match_not_empty (m : list (option string)) :
  group_or_match m = group_if_not_empty m.
Proof.
  unfold group_or_match, group_if_not_empty, match_entry.
  destruct (nth_error m 1) as [[g|]|]; cbn [ToBoolean]; try reflexivity.
  destruct (g =? ""); reflexivity.
Qed.




(** C5.  Miss semantics and the "Not found" sentinel.  When the path
    evaluator gives null or the string "Not found" for a source, the loop goes
    on with the sources after it; when that is so for every source that is
    configured and present, [processSelector] returns null, normally. *)
Theorem miss_semantics (E : Engine) (data : StructuredDataPayload.t)
  (selector : FieldSelector.t) :
  (forall method rest path,
      truthy (selector_path selector (Method.key method)) = Some path ->
      extractFromSource E (payload_source data (Method.source method)) path
      = Normal None
      \/ extractFromSource E (payload_source data (Method.source method)) path
         = Normal (Some "Not found") ->
      try_methods E data selector (method :: rest)
      = try_methods E data selector rest)
  /\ ((forall src path,
          In src priority ->
          truthy (selector_path selector src) = Some path ->
          ToBoolean (payload_source data src) = true ->
          evaluateStructuredDataPath E (payload_source data src) path
          = Normal None
          \/ evaluateStructuredDataPath E (payload_source data src) path
             = Normal (Some "Not found")) ->
      processSelector E data selector = Normal None).
Proof.
  split.
  - intros method rest path Hpath Hmiss. cbn [try_methods]. rewrite Hpath.
    destruct (ToBoolean (payload_source data (Method.source method)));
      [|reflexivity].
    destruct Hmiss as [H|H]; rewrite H; reflexivity.
  - intros Hall. rewrite processSelector_first_hit, first_hit_none;
      [reflexivity|].
    intros s Hs. unfold hit.
    destruct (truthy (selector_path selector s)) as [path|] eqn:Hp;
      [|reflexivity].
    destruct (ToBoolean (payload_source data s)) eqn:Hb; [|reflexivity].
    destruct (Hall s path Hs Hp Hb) as [H|H]; rewrite H; reflexivity.
Qed.

Lemma miss_semantics_witness :
  processSelector plain_engine example_payload
    (selector_of (Some "0.missing") (Some "og:none") None None None)
  = Normal None.
Proof.
  apply (proj2 (miss_semantics plain_engine example_payload
                  (selector_of (Some "0.missing") (Some "og:none")
                     None None None))).
  intros src path Hin Hp Hb.
  destruct src; cbn in Hp; inversion Hp; subst; left; reflexivity.
Defined.

(** C6, counterexample.  With the selector regex [(a?)b] and the string [b]
    found under metaTags, the match succeeds and its first group is present,
    holding the empty string; the field returned holds the full match [b],
    not that group. *)
Lemma empty_group_not_preferred :
  ~ prefers_present_group empty_group_engine empty_group_payload
      empty_group_selector.
Proof.
  intros H.
  specialize (H metaTags "w" "b" "(a?)b" "b" [Some "b"; Some ""]
                eq_refl eq_refl eq_refl eq_refl).
  vm_compute in H. discriminate H.
Qed.

(** C6, as amended.  When the selector has a standalone regex and a source
    hits, the regex is matched against the value left by the transformation
    pipeline if that value is a string: on a match the field holds capture
    group 1 if that group is present and not empty, else the full match; on
    no match, and when the value is not a string, the field holds the value
    unchanged. *)
Theorem standalone_regex_step (E : Engine) (data : StructuredDataPayload.t)
  (selector : FieldSelector.t) (src : SourceName) (path raw re : string)
  (w : JsValue) :
  first_hit E data selector priority = Some (src, (path, raw)) ->
  applyTransformations E (JsString raw)
    (FieldSelector.transformations selector) = Normal w ->
  truthy (FieldSelector.regex selector) = Some re ->
  (forall s m,
      w = JsString s ->
      RegExp_match E re None s = Normal (Some m) ->
      processSelector E data selector
      = Normal (Some (field_of (group_if_not_empty m) src path)))
  /\ (forall s,
         w = JsString s ->
         RegExp_match E re None s = Normal None ->
         processSelector E data selector
         = Normal (Some (field_of w src path)))
  /\ (typeof E w <> "string" ->
      processSelector E data selector = Normal (Some (field_of w src path))).
Proof.
  intros Hfirst Hpipe Hre.
  rewrite processSelector_first_hit, Hfirst. unfold post_process.
  rewrite Hpipe. cbn [bind].
  split; [|split].
  - intros s m Hw Hm. subst w. unfold apply_selector_regex.
    rewrite Hre, Hm. cbn [bind]. rewrite group_or_match_not_empty.
    reflexivity.
  - intros s Hw Hm. subst w. unfold apply_selector_regex.
    rewrite Hre, Hm. reflexivity.
  - intros Hty.
    rewrite (apply_selector_regex_non_string E selector w
               (not_typeof_string E w Hty)).
    reflexivity.
Qed.

Lemma standalone_regex_step_witness :
  processSelector empty_group_engine empty_group_payload empty_group_selector
  = Normal (Some (field_of (JsString "b") metaTags "w")).
Proof.
  apply (proj1 (standalone_regex_step empty_group_engine empty_group_payload
                  empty_group_selector metaTags "w" "b" "(a?)b" (JsString "b")
                  eq_refl eq_refl eq_refl)
           "b" [Some "b"; Some ""] eq_refl eq_refl).
Defined.

(** C4.  Order of the transformation pipeline and [parseNumber].  The
    transformations are applied in the listed order, each to the output of the
    one before it.  [parseNumber] on a string removes every character other
    than a digit, '.' or '-', parses what remains as a floating-point number,
    and leaves the string as it is when the result is NaN.  For a payload
    whose jsonLd[0].offers.price is the string 1399.00, the selector with
    jsonLd path [0.offers.price] and the single transformation parseNumber
    yields the number 1399. *)
Theorem pipeline_order_and_parseNumber (E : Engine) :
  (forall data selector src path raw,
      first_hit E data selector priority = Some (src, (path, raw)) ->
      processSelector E data selector
      = (w <- applyTransformations E (JsString raw)
                (FieldSelector.transformations selector) ;;
         v <- apply_selector_regex E selector w ;;
         Normal (Some (field_of v src path))))
  /\ (forall v t rest,
      applyTransformations E v (Some (t :: rest))
      = (w <- apply_transformation E t v ;;
         applyTransformations E w (Some rest)))
  /\ (forall v before after,
         applyTransformations E v (Some (before ++ after))
         = (w <- applyTransformations E v (Some before) ;;
            applyTransformations E w (Some after)))
  /\ (forall t s,
         FieldTransformation.type t = FieldTransformation.parseNumber ->
         apply_transformation E t (JsString s)
         = Normal (if isNaN (parseFloat (strip_non_numeric s))
                   then JsString s
                   else JsNumber (parseFloat (strip_non_numeric s))))
  /\ (forall s c,
         includes c (strip_non_numeric s)
         = (is_digit c || Ascii.eqb c "." || Ascii.eqb c "-") && includes c s)
  /\ (forall data selector t,
         ToBoolean (StructuredDataPayload.jsonLd data) = true ->
         walk E (StructuredDataPayload.jsonLd data) ["0"; "offers"; "price"]
         = Some (JsString "1399.00") ->
         FieldSelector.jsonLd selector = Some "0.offers.price" ->
         FieldSelector.transformations selector = Some [t] ->
         FieldTransformation.type t = FieldTransformation.parseNumber ->
         FieldSelector.regex selector = None ->
         processSelector E data selector
         = Normal (Some {| ExtractedField.value := JsNumber (number_of_Z 1399);
                           ExtractedField.source := jsonLd;
                           ExtractedField.path := "0.offers.price";
                           ExtractedField.confidence := literal "0.9" |})
         /\ typeof E (JsNumber (number_of_Z 1399)) = "number").
Proof.
  split.
  { intros data selector src path raw Hfirst.
    rewrite processSelector_first_hit, Hfirst. unfold post_process.
    destruct (applyTransformations E (JsString raw)
                (FieldSelector.transformations selector)); reflexivity. }
  split.
  { intros v t rest. rewrite !applyTransformations_each. cbn [apply_each].
    destruct (apply_transformation E t v) as [w|e]; cbn [bind];
      [rewrite applyTransformations_each|]; reflexivity. }
  split.
  { intros v before after. rewrite !applyTransformations_each.
    rewrite apply_each_app.
    destruct (apply_each E before v) as [w|e]; cbn [bind];
      [rewrite applyTransformations_each|]; reflexivity. }
  split.
  { intros t s Ht. unfold apply_transformation. rewrite Ht.
    destruct (isNaN (parseFloat (strip_non_numeric s))); reflexivity. }
  split; [exact includes_strip|].
  intros data selector t Hroot Hwalk Hpath Hts Ht Hre.
  split; [|reflexivity].
  assert (Heval : evaluateStructuredDataPath E
                    (StructuredDataPayload.jsonLd data) "0.offers.price"
                  = Normal (Some "1399.00")).
  { rewrite (evaluate_resolve E _ "0.offers.price" Hroot); [|discriminate].
    change (split "." "0.offers.price") with ["0"; "offers"; "price"].
    rewrite (resolve_plain E ["0"; "offers"; "price"] _ eq_refl), Hwalk.
    reflexivity. }
  assert (Hfirst : first_hit E data selector priority
                   = Some (jsonLd, ("0.offers.price", "1399.00"))).
  { unfold priority. cbn [first_hit]. unfold hit.
    cbn [selector_path payload_source]. rewrite Hpath.
    cbn [truthy String.eqb Ascii.eqb Bool.eqb]. rewrite Hroot, Heval.
    reflexivity. }
  rewrite processSelector_first_hit, Hfirst. unfold post_process.
  rewrite Hts. cbn [applyTransformations apply_each].
  unfold apply_transformation. rewrite Ht.
  assert (Hnum : parseFloat (strip_non_numeric "1399.00") = number_of_Z 1399)
    by (vm_compute; reflexivity).
  rewrite Hnum. unfold apply_selector_regex. rewrite Hre.
  reflexivity.
Qed.

Lemma pipeline_order_and_parseNumber_witness :
  processSelector plain_engine example_payload price_selector
  = Normal (Some {| ExtractedField.value := JsNumber (number_of_Z 1399);
                    ExtractedField.source := jsonLd;
                    ExtractedField.path := "0.offers.price";
                    ExtractedField.confidence := literal "0.9" |}).
Proof.
  apply (proj2 (proj2 (proj2 (proj2 (proj2
           (pipeline_order_and_parseNumber plain_engine)))))
           example_payload price_selector
           (transformation_of FieldTransformation.parseNumber None None));
    reflexivity.
Defined.

(** C9.  A [replace] transformation whose replacement is empty or absent, or
    whose pattern is absent or empty, is the identity on every value, and
    returns normally: the step can be removed from any pipeline. *)
Theorem replace_without_replacement_is_identity (E : Engine)
  (t : FieldTransformation.t) :
  FieldTransformation.type t = FieldTransformation.replace ->
  FieldTransformation.replacement t = Some ""
  \/ FieldTransformation.replacement t = None
  \/ FieldTransformation.pattern t = None
  \/ FieldTransformation.pattern t = Some "" ->
  (forall v, apply_transformation E t v = Normal v)
  /\ (forall v before after,
         applyTransformations E v (Some (before ++ t :: after))
         = applyTransformations E v (Some (before ++ after))).
Proof.
  intros Ht Hcase.
  assert (Hid : forall v, apply_transformation E t v = Normal v).
  { intros v. unfold apply_transformation. rewrite Ht.
    destruct Hcase as [H|[H|[H|H]]]; rewrite H; cbn [truthy String.eqb];
      try (destruct (truthy (FieldTransformation.pattern t)));
      destruct v; reflexivity. }
  split; [exact Hid|].
  intros v before after. rewrite !applyTransformations_each.
  rewrite !apply_each_app.
  destruct (apply_each E before v) as [w|e]; cbn [bind apply_each];
    [|reflexivity].
  rewrite Hid. reflexivity.
Qed.

Lemma replace_without_replacement_is_identity_witness :
  apply_transformation plain_engine
    (transformation_of FieldTransformation.replace (Some "-") (Some ""))
    (JsString "a-b")
  = Normal (JsString "a-b").
Proof.
  apply (replace_without_replacement_is_identity plain_engine
           (transformation_of FieldTransformation.replace (Some "-") (Some ""))
           eq_refl (or_introl eq_refl)).
Defined.

(** C10.  The pipeline is the identity on values that are not strings.  For
    a value whose [typeof] is not "string" (a number, a boolean, null), each
    of the seven transformation kinds returns the value unchanged, and so does
    any list of transformations; hence once a prefix of a pipeline has
    produced such a value, the rest of the pipeline leaves it alone. *)
Theorem non_string_identity (E : Engine) (v : JsValue) :
  typeof E v <> "string" ->
  (forall t, apply_transformation E t v = Normal v)
  /\ (forall transformations,
         applyTransformations E v transformations = Normal v)
  /\ (forall w before after,
         applyTransformations E w (Some before) = Normal v ->
         applyTransformations E w (Some (before ++ after)) = Normal v).
Proof.
  intros Hty. pose proof (not_typeof_string E v Hty) as Hs.
  split; [intros t; apply apply_transformation_non_string; exact Hs|].
  split.
  - intros [ts|]; [|reflexivity].
    rewrite applyTransformations_each. apply apply_each_non_string. exact Hs.
  - intros w before after H. rewrite applyTransformations_each in H.
    rewrite applyTransformations_each, apply_each_app, H. cbn [bind].
    apply apply_each_non_string. exact Hs.
Qed.

Lemma non_string_identity_witness :
  applyTransformations plain_engine (JsString "1399.00")
    (Some ([transformation_of FieldTransformation.parseNumber None None]
           ++ [transformation_of FieldTransformation.trim None None;
               transformation_of FieldTransformation.uppercase None None]))
  = Normal (JsNumber (number_of_Z 1399)).
Proof.
  apply (proj2 (proj2 (non_string_identity plain_engine
                         (JsNumber (number_of_Z 1399))
                         ltac:(discriminate)))).
  reflexivity.
Defined.

(** ** [validateStructuredData] *)

Lemma validateStructuredData_well_typed (E : Engine) (data : JsValue) :
  validateStructuredData E data = Normal (well_typed E data).
Proof.
  unfold validateStructuredData, well_typed.
  destruct (typeof E data =? "object") eqn:Hty; [|reflexivity].
  destruct data; try discriminate Hty; try reflexivity;
    cbn [and_then negb andb];
    repeat match goal with
      | |- context [Get E ?d ?k] =>
          let x := fresh "x" in
          let Hx := fresh "Hx" in
          destruct (Get_normal E d k eq_refl) as [x Hx];
          unfold field; rewrite !Hx; cbn [bind];
          clear Hx
      end;
    repeat match goal with
      | |- context [and_then ?a _] =>
          destruct a; cbn [and_then andb]; [|reflexivity]
      end;
    reflexivity.
Qed.

Lemma validateStructuredData_rejects_non_sequence (E : Engine)
  (data : JsValue) :
  isArray E (field E data "jsonLd") = false ->
  validateStructuredData E data = Normal false.
Proof.
  intros H. rewrite validateStructuredData_well_typed. unfold well_typed.
  rewrite H, andb_false_r. reflexivity.
Qed.

(** C7.  The payload validation predicate at a candidate whose [metaTags] is
    [null] and whose other fields are well-typed: [typeof null] is "object",
    so the candidate is accepted although its [metaTags] is not an object. *)
Theorem validate_accepts_null_metaTags (E : Engine) :
  Get E null_metaTags_candidate "metaTags" = Normal JsNull
  /\ validateStructuredData E null_metaTags_candidate = Normal true.
Proof. split; reflexivity. Qed.

(** ** [processRecipe] *)

Lemma own_field_set_own_same (own : list (string * ExtractedField.t))
  (k : string) (v : ExtractedField.t) :
  own_field k (set_own own k v) = Some v.
Proof.
  induction own as [|[k' v'] rest IH]; cbn [set_own own_field].
  - rewrite String.eqb_refl. reflexivity.
  - destruct (k' =? k) eqn:Hk; cbn [own_field]; rewrite Hk;
      [reflexivity|exact IH].
Qed.

Lemma own_field_set_own_other (own : list (string * ExtractedField.t))
  (k name : string) (v : ExtractedField.t) :
  k <> name ->
  own_field name (set_own own k v) = own_field name own.
Proof.
  intros Hne. apply String.eqb_neq in Hne.
  induction own as [|[k' v'] rest IH]; cbn [set_own own_field].
  - rewrite Hne. reflexivity.
  - destruct (k' =? k) eqn:Hk; cbn [own_field].
    + apply String.eqb_eq in Hk. subst k'. rewrite Hne. reflexivity.
    + rewrite IH. reflexivity.
Qed.

Lemma own_field_assign (result : ProductData.t) (k name : string)
  (v : ExtractedField.t) :
  name <> "__proto__" ->
  own_field name (ProductData.own (assign result k v))
  = if k =? name then Some v else own_field name (ProductData.own result).
Proof.
  intros Hname. unfold assign.
  destruct (k =? "__proto__") eqn:Hp; cbn [ProductData.own].
  - apply String.eqb_eq in Hp. subst k.
    destruct (String.eqb_spec "__proto__" name) as [Heq|_];
      [symmetry in Heq; contradiction|reflexivity].
  - destruct (String.eqb_spec k name) as [Heq|Hne].
    + subst k. apply own_field_set_own_same.
    + apply own_field_set_own_other. exact Hne.
Qed.

Lemma find_entry_absent (name : string)
  (entries : list (string * FieldSelector.t)) :
  ~ In name (map fst entries) -> find_entry name entries = None.
Proof.
  induction entries as [|[k sel] rest IH]; intros H; [reflexivity|].
  cbn [find_entry]. destruct (String.eqb_spec k name) as [Heq|Hne].
  - exfalso. apply H. left. exact Heq.
  - apply IH. intros Hin. apply H. right. exact Hin.
Qed.

Lemma processRecipe_loop_own_field (E : Engine)
  (data : StructuredDataPayload.t) (entries : list (string * FieldSelector.t)) :
  forall acc result name,
    NoDup (map fst entries) ->
    processRecipe_loop E data entries acc = Normal result ->
    name <> "__proto__" ->
    own_field name (ProductData.own result)
    = match find_entry name entries with
      | Some selector =>
          match resolution E data selector with
          | Some f => Some f
          | None => own_field name (ProductData.own acc)
          end
      | None => own_field name (ProductData.own acc)
      end.
Proof.
  induction entries as [|[k sel] rest IH]; intros acc result name Hnd Hloop Hname.
  - inversion Hloop; subst. reflexivity.
  - cbn [map fst] in Hnd. inversion Hnd as [|k0 ks Hnotin Hnd']; subst.
    cbn [processRecipe_loop] in Hloop. cbn [find_entry].
    destruct (processSelector E data sel) as [r|e] eqn:Hsel;
      [|discriminate Hloop].
    cbn [bind] in Hloop.
    assert (Hres : resolution E data sel = r)
      by (unfold resolution; rewrite Hsel; reflexivity).
    destruct (String.eqb_spec k name) as [Heq|Hne].
    + subst k. rewrite Hres. destruct r as [f|].
      * rewrite (IH _ _ name Hnd' Hloop Hname).
        rewrite (find_entry_absent _ _ Hnotin).
        rewrite (own_field_assign _ _ _ _ Hname), String.eqb_refl.
        reflexivity.
      * rewrite (IH _ _ name Hnd' Hloop Hname).
        rewrite (find_entry_absent _ _ Hnotin). reflexivity.
    + destruct r as [f|].
      * rewrite (IH _ _ name Hnd' Hloop Hname).
        rewrite (own_field_assign _ _ _ _ Hname).
        apply String.eqb_neq in Hne. rewrite Hne. reflexivity.
      * exact (IH _ _ name Hnd' Hloop Hname).
Qed.

(** For every field name other than [__proto__], the result of
    [processRecipe] has the field exactly when the recipe has a selector under
    that name whose resolution is not null, and then holds that resolution. *)
Lemma processRecipe_own_field (E : Engine) (data : StructuredDataPayload.t)
  (selectors : list (string * FieldSelector.t)) (result : ProductData.t)
  (name : string) :
  NoDup (map fst selectors) ->
  processRecipe E data selectors = Normal result ->
  name <> "__proto__" ->
  own_field name (ProductData.own result)
  = match find_entry name selectors with
    | Some selector => resolution E data selector
    | None => None
    end.
Proof.
  intros Hnd Hres Hname.
  rewrite (processRecipe_loop_own_field E data selectors _ result name
             Hnd Hres Hname).
  cbn [ProductData.own own_field].
  destruct (find_entry name selectors) as [sel|]; [|reflexivity].
  destruct (resolution E data sel); reflexivity.
Qed.

(** C8.  Batch resolution at a recipe whose field is named [__proto__]: the
    selector resolves to a field, yet the result has no own key at all; the
    assignment replaced the prototype of the result instead. *)
Theorem recipe_drops_proto_key (E : Engine) :
  processSelector E example_payload name_selector = Normal (Some name_field)
  /\ processRecipe E example_payload proto_recipe
     = Normal {| ProductData.own := []; ProductData.proto := Some name_field |}
  /\ own_keys {| ProductData.own := []; ProductData.proto := Some name_field |}
     = [].
Proof. repeat split; reflexivity. Qed.

(* ================================================================== *)
(** * Further properties of the processing module *)
(* ================================================================== *)

(** ** The path evaluator at its edges *)

(** X1.  A path one of whose segments has both brackets but no [[digits]]
    group (an empty, negative or non-numeric index, brackets in the wrong
    order) evaluates to null on every root. *)
Theorem malformed_index_gives_null (E : Engine) (root : JsValue)
  (path : string) (before : list string) (seg : string) (after : list string) :
  split "." path = before ++ seg :: after ->
  malformed_brackets seg = true ->
  evaluateStructuredDataPath E root path = Normal None.
Proof.
  intros Hsplit Hseg.
  destruct (ToBoolean root) eqn:Hroot;
    [|apply evaluate_empty; left; exact Hroot].
  destruct (String.eqb_spec path "") as [Hpath|Hpath];
    [apply evaluate_empty; right; exact Hpath|].
  rewrite (evaluate_resolve E root path Hroot Hpath), Hsplit, resolve_app.
  destruct (resolve E root before) as [c|]; [|reflexivity].
  cbn [resolve].
  assert (Hadv : advance E c seg = None).
  { unfold malformed_brackets in Hseg.
    apply andb_true_iff in Hseg. destruct Hseg as [Hbr Hscan].
    unfold advance, eval_part. rewrite Hbr.
    destruct (scan_indices (substring seg (indexOf "[" seg) None));
      [reflexivity|discriminate Hscan]. }
  rewrite Hadv. reflexivity.
Qed.

Lemma malformed_index_gives_null_witness :
  evaluateStructuredDataPath plain_engine array_data "array[-1].name"
  = Normal None.
Proof.
  apply (malformed_index_gives_null plain_engine array_data "array[-1].name"
           [] "array[-1]" ["name"]); reflexivity.
Defined.

Lemma digits_value_all_digits (s : string) :
  forall acc v, digits_value acc s = Some v -> all_digits s = true.
Proof.
  induction s as [|c s IH]; intros acc v H; [reflexivity|].
  cbn [digits_value] in H. cbn [all_digits].
  destruct (is_digit c); [|discriminate H].
  exact (IH _ _ H).
Qed.

Lemma canonical_index_text (ds : string) (i : N) :
  canonical_index ds = Some i ->
  index_text ds = true /\ index_of_text ds = i /\ (ds =? "length") = false.
Proof.
  intros H.
  assert (Hlen : (ds =? "length") = false).
  { destruct (String.eqb_spec ds "length") as [Heq|_]; [|reflexivity].
    subst ds. vm_compute in H. discriminate H. }
  unfold canonical_index in H. destruct ds as [|c ds]; [discriminate H|].
  destruct (Ascii.eqb_spec c "0") as [Hc|Hc].
  - subst c. destruct ds; [|discriminate H]. inversion H; subst.
    repeat split; reflexivity.
  - unfold index_text, index_of_text. rewrite H.
    rewrite (digits_value_all_digits _ _ _ H).
    repeat split; try reflexivity; exact Hlen.
Qed.

Lemma all_digits_no_open (ds : string) :
  all_digits ds = true -> includes "[" ds = false.
Proof.
  induction ds as [|c ds IH]; intros H; [reflexivity|].
  cbn [all_digits] in H. apply andb_true_iff in H. destruct H as [Hc Hds].
  cbn [includes]. rewrite (is_digit_not_open c Hc), (IH Hds). reflexivity.
Qed.

Lemma advance_canonical (E : Engine) (elems : list JsValue) (ds : string)
  (i : N) :
  canonical_index ds = Some i ->
  advance E (JsArray elems) ds = element E (JsArray elems) i.
Proof.
  intros H. destruct (canonical_index_text ds i H) as (Htext & _ & Hlen).
  unfold index_text in Htext. apply andb_true_iff in Htext.
  destruct Htext as [_ Hall].
  unfold advance, eval_part.
  rewrite (all_digits_no_open ds Hall). cbn [andb Get bind].
  rewrite Hlen, H. cbn [element].
  destruct (nth_error elems (N.to_nat i)) as [x|] eqn:Hn.
  - rewrite (nth_error_nth _ _ JsUndefined Hn). reflexivity.
  - apply nth_error_None in Hn.
    rewrite (nth_overflow _ JsUndefined Hn). reflexivity.
Qed.

(** X2.  On an array a dotted index and a bracketed index select the same
    element: for a property that holds an array, the paths [name.i.rest] and
    [name[i].rest] evaluate alike, and so do [i.rest] and [[i].rest] on a root
    array, for every index written without a superfluous leading zero. *)
Theorem dotted_index_is_bracket_index (E : Engine) (ds : string) (i : N)
  (elems : list JsValue) (rest : string) :
  canonical_index ds = Some i ->
  evaluateStructuredDataPath E (JsArray elems) (ds ++ String "." rest)
  = evaluateStructuredDataPath E (JsArray elems)
      (segment "" [ds] ++ String "." rest)
  /\ (forall root name,
         ToBoolean root = true ->
         name <> "" ->
         includes "[" name = false ->
         includes "." name = false ->
         property E root name = Some (JsArray elems) ->
         evaluateStructuredDataPath E root
           (name ++ String "." (ds ++ String "." rest))
         = evaluateStructuredDataPath E root
             (segment name [ds] ++ String "." rest)).
Proof.
  intros H. destruct (canonical_index_text ds i H) as (Htext & Hidx & _).
  assert (Hall : all_digits ds = true).
  { unfold index_text in Htext. apply andb_true_iff in Htext. apply Htext. }
  assert (Hds : forallb index_text [ds] = true)
    by (cbn [forallb]; rewrite Htext; reflexivity).
  assert (Hne : ds <> "").
  { intros Heq. subst ds. discriminate H. }
  split.
  - rewrite (evaluate_segment_then E (JsArray elems) "" [ds] rest
               eq_refl eq_refl eq_refl ltac:(discriminate) Hds).
    rewrite (evaluate_resolve E (JsArray elems) _ eq_refl
               (append_not_empty _ _ Hne)).
    rewrite (split_append _ _ _ (all_digits_no_dot ds Hall)).
    cbn [resolve map bracket_access String.eqb index_chain].
    rewrite (advance_canonical E elems ds i H), Hidx.
    destruct (element E (JsArray elems) i); reflexivity.
  - intros root name Hroot Hname Hopen Hdot Hprop.
    rewrite (evaluate_segment_then E root name [ds] rest
               Hroot Hopen Hdot ltac:(discriminate) Hds).
    rewrite (evaluate_resolve E root _ Hroot (append_not_empty _ _ Hname)).
    rewrite (split_append _ _ _ Hdot).
    rewrite (split_append _ _ _ (all_digits_no_dot ds Hall)).
    cbn [resolve map].
    assert (Hplain : plain_name name = true).
    { unfold plain_name. rewrite Hopen. reflexivity. }
    rewrite (advance_plain E root name Hplain), Hprop.
    rewrite (advance_canonical E elems ds i H).
    unfold bracket_access. apply String.eqb_neq in Hname. rewrite Hname, Hprop.
    cbn [index_chain]. rewrite Hidx.
    destruct (element E (JsArray elems) i); reflexivity.
Qed.

Lemma dotted_index_is_bracket_index_witness :
  evaluateStructuredDataPath plain_engine
    (StructuredDataPayload.dataLayers example_payload)
    "dataLayer.0.product.name"
  = evaluateStructuredDataPath plain_engine
      (StructuredDataPayload.dataLayers example_payload)
      "dataLayer[0].product.name".
Proof.
  apply (proj2 (dotted_index_is_bracket_index plain_engine "0" 0
                  [JsObject [("product", JsObject [("name", JsString "Example")])]]
                  "product.name" eq_refl)
           (StructuredDataPayload.dataLayers example_payload) "dataLayer");
    [reflexivity|discriminate|reflexivity|reflexivity|reflexivity].
Defined.

(** ** Batch resolution *)

Lemma set_own_absent (own : list (string * ExtractedField.t)) (k : string)
  (v : ExtractedField.t) :
  ~ In k (map fst own) -> set_own own k v = own ++ [(k, v)].
Proof.
  induction own as [|[k' v'] rest IH]; intros H; [reflexivity|].
  cbn [set_own app]. destruct (String.eqb_spec k' k) as [Heq|Hne].
  - exfalso. apply H. left. exact Heq.
  - rewrite IH; [reflexivity|]. intros Hin. apply H. right. exact Hin.
Qed.

Lemma processRecipe_loop_order (E : Engine) (data : StructuredDataPayload.t)
  (entries : list (string * FieldSelector.t)) :
  forall acc result,
    NoDup (map fst (ProductData.own acc) ++ map fst entries) ->
    ~ In "__proto__" (map fst entries) ->
    processRecipe_loop E data entries acc = Normal result ->
    ProductData.own result
    = ProductData.own acc ++ resolved_entries E data entries
    /\ ProductData.proto result = ProductData.proto acc.
Proof.
  induction entries as [|[k sel] rest IH]; intros acc result Hnd Hproto Hloop.
  - inversion Hloop; subst. cbn [resolved_entries]. rewrite app_nil_r.
    split; reflexivity.
  - cbn [processRecipe_loop] in Hloop. cbn [resolved_entries].
    unfold resolution.
    destruct (processSelector E data sel) as [r|e]; [|discriminate Hloop].
    cbn [bind] in Hloop. cbn [map fst] in Hnd, Hproto.
    assert (Hk : k <> "__proto__").
    { intros Heq. apply Hproto. left. exact Heq. }
    assert (Hrest : ~ In "__proto__" (map fst rest)).
    { intros Hin. apply Hproto. right. exact Hin. }
    destruct r as [f|].
    + assert (Hfresh : ~ In k (map fst (ProductData.own acc))).
      { intros Hin. apply NoDup_remove_2 in Hnd. apply Hnd.
        apply in_or_app. left. exact Hin. }
      assert (Hassign : assign acc k f
                        = {| ProductData.own := ProductData.own acc ++ [(k, f)];
                             ProductData.proto := ProductData.proto acc |}).
      { unfold assign. apply String.eqb_neq in Hk. rewrite Hk.
        rewrite (set_own_absent _ _ _ Hfresh). reflexivity. }
      rewrite Hassign in Hloop.
      assert (Hnd' : NoDup (map fst (ProductData.own acc ++ [(k, f)])
                            ++ map fst rest)).
      { rewrite map_app. cbn [map fst]. rewrite <- app_assoc. exact Hnd. }
      destruct (IH {| ProductData.own := ProductData.own acc ++ [(k, f)];
                      ProductData.proto := ProductData.proto acc |}
                  result Hnd' Hrest Hloop) as [Hown Hp].
      cbn [ProductData.own ProductData.proto] in Hown, Hp.
      rewrite Hown, <- app_assoc. split; [reflexivity|exact Hp].
    + apply (IH acc result); [|exact Hrest|exact Hloop].
      apply NoDup_remove_1 in Hnd. exact Hnd.
Qed.

Lemma processRecipe_loop_returns (E : Engine) (data : StructuredDataPayload.t)
  (entries : list (string * FieldSelector.t)) :
  (forall entry, In entry entries ->
     exists r, processSelector E data (snd entry) = Normal r) ->
  forall acc, exists result, processRecipe_loop E data entries acc = Normal result.
Proof.
  induction entries as [|[k sel] rest IH]; intros Hok acc.
  - exists acc. reflexivity.
  - cbn [processRecipe_loop].
    destruct (Hok (k, sel) (or_introl eq_refl)) as [r Hr].
    cbn [snd] in Hr. rewrite Hr. cbn [bind].
    assert (Hrest : forall entry, In entry rest ->
                      exists r', processSelector E data (snd entry) = Normal r')
      by (intros entry Hin; apply Hok; right; exact Hin).
    destruct r as [f|]; apply (IH Hrest).
Qed.

(** X3.  For a recipe whose field names are distinct and none of which is
    [__proto__], when the post-processing of no field throws,
    [processRecipe] returns, and the own fields of its result are exactly
    the fields that resolve, each holding its resolution, in the order of
    the recipe. *)
Theorem processRecipe_keeps_order (E : Engine) (data : StructuredDataPayload.t)
  (selectors : list (string * FieldSelector.t)) :
  NoDup (map fst selectors) ->
  ~ In "__proto__" (map fst selectors) ->
  (forall entry, In entry selectors ->
     exists r, processSelector E data (snd entry) = Normal r) ->
  exists result,
    processRecipe E data selectors = Normal result
    /\ ProductData.own result = resolved_entries E data selectors
    /\ own_keys result = map fst (resolved_entries E data selectors).
Proof.
  intros Hnd Hproto Hok.
  destruct (processRecipe_loop_returns E data selectors Hok
              {| ProductData.own := []; ProductData.proto := None |})
    as [result Hres].
  exists result. split; [exact Hres|].
  destruct (processRecipe_loop_order E data selectors
              {| ProductData.own := []; ProductData.proto := None |}
              result Hnd Hproto Hres) as [Hown _].
  cbn [ProductData.own app] in Hown. unfold own_keys. rewrite Hown.
  split; reflexivity.
Qed.

Lemma processRecipe_keeps_order_witness :
  exists result,
    processRecipe plain_engine example_payload two_field_recipe = Normal result
    /\ ProductData.own result = [("productName", name_field)]
    /\ own_keys result = ["productName"].
Proof.
  apply (processRecipe_keeps_order plain_engine example_payload
           two_field_recipe).
  - repeat constructor; simpl; intuition discriminate.
  - simpl; intuition discriminate.
  - intros entry Hin. simpl in Hin.
    destruct Hin as [<-|[<-|[]]]; eexists; reflexivity.
Defined.

Lemma processRecipe_loop_throws (E : Engine) (data : StructuredDataPayload.t)
  (before : list (string * FieldSelector.t)) :
  forall acc name selector after e,
    (forall entry, In entry before ->
       exists r, processSelector E data (snd entry) = Normal r) ->
    processSelector E data selector = Throw e ->
    processRecipe_loop E data (before ++ (name, selector) :: after) acc
    = Throw e.
Proof.
  induction before as [|[k sel] rest IH]; intros acc name selector after e Hok Hthrow.
  - cbn [app processRecipe_loop]. rewrite Hthrow. reflexivity.
  - cbn [app processRecipe_loop].
    destruct (Hok (k, sel) (or_introl eq_refl)) as [r Hr].
    cbn [snd] in Hr. rewrite Hr. cbn [bind].
    destruct r; apply IH; try exact Hthrow;
      intros entry Hin; apply Hok; right; exact Hin.
Qed.

(** X4.  Faults of the post-processing are not absorbed.  When a source
    hits, the transformations leave a string, and the selector has a
    standalone regex that the RegExp constructor rejects when it is matched
    against that string, [processSelector] throws instead of trying the next
    source, and a recipe that holds such a selector makes [processRecipe]
    throw, whatever the fields before it resolved to, provided none of them
    throws first. *)
Theorem rejected_regex_aborts_batch (E : Engine)
  (data : StructuredDataPayload.t) (selector : FieldSelector.t)
  (src : SourceName) (path raw re s : string) (e : JsError) :
  first_hit E data selector priority = Some (src, (path, raw)) ->
  applyTransformations E (JsString raw)
    (FieldSelector.transformations selector) = Normal (JsString s) ->
  truthy (FieldSelector.regex selector) = Some re ->
  RegExp_match E re None s = Throw e ->
  processSelector E data selector = Throw e
  /\ (forall before name after,
         (forall entry, In entry before ->
            exists r, processSelector E data (snd entry) = Normal r) ->
         processRecipe E data (before ++ (name, selector) :: after) = Throw e).
Proof.
  intros Hfirst Hpipe Hre Hmatch.
  assert (Hthrow : processSelector E data selector = Throw e).
  { rewrite processSelector_first_hit, Hfirst. unfold post_process.
    rewrite Hpipe. cbn [bind]. unfold apply_selector_regex.
    rewrite Hre, Hmatch. reflexivity. }
  split; [exact Hthrow|].
  intros before name after Hok. unfold processRecipe.
  apply processRecipe_loop_throws; assumption.
Qed.

Lemma rejected_regex_aborts_batch_witness :
  processRecipe rejecting_engine example_payload
    ([("productName", name_selector)]
     ++ ("brand", broken_regex_selector)
     :: [("price", price_selector)])
  = Throw SyntaxError.
Proof.
  apply (proj2 (rejected_regex_aborts_batch rejecting_engine example_payload
                  broken_regex_selector jsonLd "0.name" "Example Product" "("
                  "Example Product" SyntaxError
                  eq_refl eq_refl eq_refl eq_refl)).
  intros entry [Hentry|[]]. subst entry.
  exists (Some name_field). reflexivity.
Defined.

(** ** Transformations *)

Lemma read_digits_no_digit (s : string) (acc : N) (count : nat) :
  has_digit s = false -> read_digits acc count s = (acc, count, s).
Proof.
  destruct s as [|c s]; [reflexivity|].
  cbn [has_digit read_digits]. intros H.
  apply orb_false_iff in H. destruct H as [Hc _]. rewrite Hc. reflexivity.
Qed.

Lemma has_digit_strip (s : string) :
  has_digit s = false -> has_digit (strip_non_numeric s) = false.
Proof.
  induction s as [|c s IH]; [reflexivity|].
  cbn [has_digit strip_non_numeric]. intros H.
  apply orb_false_iff in H. destruct H as [Hc Hs].
  destruct (is_numeric_char c); [|exact (IH Hs)].
  cbn [has_digit]. rewrite Hc, (IH Hs). reflexivity.
Qed.

Lemma unsigned_needs_a_digit (neg : bool) (t : string) :
  has_digit t = false ->
  (if prefix "Infinity" t then S754_infinity neg
   else
     let '(int_part, int_count, s2) := read_digits 0 0 t in
     let '(m, frac_count, s3) :=
       match s2 with
       | String "." rest => read_digits int_part 0 rest
       | _ => (int_part, O, s2)
       end in
     match (int_count + frac_count)%nat with
     | O => NaN
     | S _ => number_of_decimal neg m (read_exponent s3 - Z.of_nat frac_count)
     end) = NaN \/ exists rest, t = String "I" rest.
Proof.
  intros Ht. destruct t as [|a t']; [left; reflexivity|].
  destruct (Ascii.eqb_spec a "I") as [Ha|Ha];
    [right; subst a; exists t'; reflexivity|left].
  assert (Hinf : prefix "Infinity" (String a t') = false).
  { cbn [prefix]. destruct (ascii_dec "I" a) as [Heq|_]; [|reflexivity].
    exfalso. apply Ha. symmetry. exact Heq. }
  rewrite Hinf, (read_digits_no_digit _ 0 0 Ht).
  cbn [has_digit] in Ht. apply orb_false_iff in Ht. destruct Ht as [_ Ht'].
  destruct (Ascii.eqb_spec a ".") as [Hdot|Hdot].
  - subst a. rewrite (read_digits_no_digit t' 0 0 Ht'). reflexivity.
  - destruct a as [[] [] [] [] [] [] [] []]; try reflexivity.
    exfalso. apply Hdot. reflexivity.
Qed.

Lemma parseFloat_needs_a_digit (u : string) :
  has_digit u = false ->
  (forall c, includes c u = true -> is_numeric_char c = true) ->
  parseFloat u = NaN.
Proof.
  intros Hd Hnum. destruct u as [|c rest]; [reflexivity|].
  assert (Hc : is_numeric_char c = true).
  { apply Hnum. cbn [includes]. rewrite Ascii.eqb_refl. reflexivity. }
  pose proof Hd as Hall.
  cbn [has_digit] in Hd. apply orb_false_iff in Hd. destruct Hd as [Hcd Hrest].
  unfold is_numeric_char in Hc. rewrite Hcd in Hc. cbn [orb] in Hc.
  apply orb_true_iff in Hc.
  destruct Hc as [Hc|Hc]; apply Ascii.eqb_eq in Hc; subst c.
  - unfold parseFloat.
    change (skip_whitespace (String "." rest)) with (String "." rest).
    change (read_sign (String "." rest)) with (false, String "." rest).
    cbv beta iota.
    destruct (unsigned_needs_a_digit false (String "." rest) Hall)
      as [H|[r H]]; [exact H|discriminate H].
  - unfold parseFloat.
    change (skip_whitespace (String "-" rest)) with (String "-" rest).
    change (read_sign (String "-" rest)) with (true, rest).
    cbv beta iota.
    destruct (unsigned_needs_a_digit true rest Hrest) as [H|[r H]];
      [exact H|].
    exfalso. subst rest.
    assert (HI : is_numeric_char "I" = true).
    { apply Hnum. cbn [includes]. rewrite Ascii.eqb_refl.
      rewrite orb_true_r. reflexivity. }
    vm_compute in HI. discriminate HI.
Qed.

(** X5.  [parseNumber] needs a digit: a string without any decimal digit is
    left as it is, whatever else it holds, and the number the transformation
    yields is never NaN. *)
Theorem parseNumber_needs_a_digit (E : Engine) (t : FieldTransformation.t)
  (s : string) :
  FieldTransformation.type t = FieldTransformation.parseNumber ->
  (has_digit s = false ->
   apply_transformation E t (JsString s) = Normal (JsString s))
  /\ (forall n,
         apply_transformation E t (JsString s) = Normal (JsNumber n) ->
         isNaN n = false).
Proof.
  intros Ht. unfold apply_transformation. rewrite Ht. split.
  - intros Hd.
    rewrite (parseFloat_needs_a_digit (strip_non_numeric s)
               (has_digit_strip s Hd)); [reflexivity|].
    intros c Hc. rewrite includes_strip in Hc.
    apply andb_true_iff in Hc. apply Hc.
  - intros n. destruct (isNaN (parseFloat (strip_non_numeric s))) eqn:Hn;
      cbn [negb]; intros H; inversion H; subst. exact Hn.
Qed.

Lemma parseNumber_needs_a_digit_witness :
  apply_transformation plain_engine
    (transformation_of FieldTransformation.parseNumber None None)
    (JsString "Price on request - call us.")
  = Normal (JsString "Price on request - call us.").
Proof.
  apply (proj1 (parseNumber_needs_a_digit plain_engine
                  (transformation_of FieldTransformation.parseNumber None None)
                  "Price on request - call us." eq_refl)).
  reflexivity.
Defined.

Lemma hit_same_paths (E : Engine) (data : StructuredDataPayload.t)
  (a b : FieldSelector.t) (src : SourceName) :
  (forall k, selector_path a k = selector_path b k) ->
  hit E data a src = hit E data b src.
Proof. intros H. unfold hit. rewrite (H src). reflexivity. Qed.

Lemma first_hit_same_paths (E : Engine) (data : StructuredDataPayload.t)
  (a b : FieldSelector.t) (srcs : list SourceName) :
  (forall k, selector_path a k = selector_path b k) ->
  first_hit E data a srcs = first_hit E data b srcs.
Proof.
  intros H. induction srcs as [|src rest IH]; [reflexivity|].
  cbn [first_hit]. rewrite (hit_same_paths E data a b src H), IH.
  reflexivity.
Qed.

(** X6.  The standalone regex is a last transformation.  Moving the regex
    of a selector to the end of its transformation list, as a [regex]
    transformation without flags, changes nothing in what [processSelector]
    returns or throws. *)
Theorem standalone_regex_is_last_transformation (E : Engine)
  (data : StructuredDataPayload.t) (selector : FieldSelector.t) :
  processSelector E data (regex_as_transformation selector)
  = processSelector E data selector.
Proof.
  unfold regex_as_transformation.
  destruct (truthy (FieldSelector.regex selector)) as [re|] eqn:Hre;
    [|reflexivity].
  rewrite !processSelector_first_hit.
  match goal with
  | |- context [first_hit E data ?s' priority] =>
      match s' with
      | selector => fail 1
      | _ => rewrite (first_hit_same_paths E data s' selector priority)
      end
  end; [|intros k; destruct k; reflexivity].
  destruct (first_hit E data selector priority) as [[src [path raw]]|];
    [|reflexivity].
  assert (Hpost : forall a b : completion JsValue, a = b ->
            (v <- a ;; Normal (Some (field_of v src path)))
            = (v <- b ;; Normal (Some (field_of v src path))))
    by (intros a b Hab; rewrite Hab; reflexivity).
  apply Hpost. unfold post_process.
  cbn [FieldSelector.transformations FieldSelector.regex].
  rewrite applyTransformations_each, apply_each_app.
  assert (Hpipe : apply_each E
                    match FieldSelector.transformations selector with
                    | Some ts => ts
                    | None => []
                    end (JsString raw)
                  = applyTransformations E (JsString raw)
                      (FieldSelector.transformations selector)).
  { destruct (FieldSelector.transformations selector) as [ts|];
      [rewrite applyTransformations_each|]; reflexivity. }
  rewrite Hpipe.
  destruct (applyTransformations E (JsString raw)
              (FieldSelector.transformations selector)) as [w|e];
    cbn [bind]; [|reflexivity].
  cbn [apply_each]. unfold apply_selector_regex, apply_transformation.
  cbn [FieldTransformation.type FieldTransformation.pattern
       FieldTransformation.flags FieldSelector.regex].
  rewrite Hre.
  assert (Htruthy : truthy (Some re) = Some re).
  { unfold truthy in Hre |- *.
    destruct (FieldSelector.regex selector) as [r|]; [|discriminate Hre].
    destruct (r =? "") eqn:Hr; [discriminate Hre|].
    inversion Hre; subst. rewrite Hr. reflexivity. }
  rewrite Htruthy. cbn [truthy].
  destruct w; cbn [bind]; try reflexivity.
  destruct (RegExp_match E re None s) as [[arr|]|e]; reflexivity.
Qed.


(* ================================================================== *)
(** * Properties of the browser module *)
(* ================================================================== *)

Lemma own_property_set_same (props : list (string * JsValue)) (k : string)
  (v : JsValue) :
  own_property k (set_property props k v) = Some v.
Proof.
  induction props as [|[k' v'] rest IH]; cbn [set_property own_property].
  - rewrite String.eqb_refl. reflexivity.
  - destruct (k' =? k) eqn:Hk; cbn [own_property]; rewrite Hk;
      [reflexivity|exact IH].
Qed.

Lemma own_property_set_other (props : list (string * JsValue))
  (k name : string) (v : JsValue) :
  k <> name ->
  own_property name (set_property props k v) = own_property name props.
Proof.
  intros Hne. apply String.eqb_neq in Hne.
  induction props as [|[k' v'] rest IH]; cbn [set_property own_property].
  - rewrite Hne. reflexivity.
  - destruct (k' =? k) eqn:Hk; cbn [own_property].
    + apply String.eqb_eq in Hk. subst k'. rewrite Hne. reflexivity.
    + rewrite IH. reflexivity.
Qed.

Lemma own_property_assign_string (props : list (string * JsValue))
  (k name s : string) :
  name <> "__proto__" ->
  own_property name (assign_string props k s)
  = if k =? name then Some (JsString s) else own_property name props.
Proof.
  intros Hname. unfold assign_string.
  destruct (String.eqb_spec k "__proto__") as [Hp|Hp].
  - subst k. destruct (String.eqb_spec "__proto__" name) as [Heq|_];
      [symmetry in Heq; contradiction|reflexivity].
  - destruct (String.eqb_spec k name) as [Heq|Hne].
    + subst k. apply own_property_set_same.
    + apply own_property_set_other. exact Hne.
Qed.

(** ** [extractMetaTags] *)

Lemma collect_meta_lookup (tags : list DomNode) :
  forall acc key,
    key <> "__proto__" ->
    own_property key (collect_meta tags acc)
    = match last_meta key tags with
      | Some tag => Some (JsString (or_empty (getAttribute tag "content")))
      | None => own_property key acc
      end.
Proof.
  induction tags as [|tag rest IH]; intros acc key Hkey; [reflexivity|].
  cbn [collect_meta last_meta].
  destruct (meta_key tag) as [k|].
  - rewrite (IH _ key Hkey).
    destruct (last_meta key rest); [reflexivity|].
    rewrite (own_property_assign_string _ _ _ _ Hkey).
    destruct (k =? key); reflexivity.
  - rewrite (IH _ key Hkey). destruct (last_meta key rest); reflexivity.
Qed.

Lemma truthy_not_empty (o : option string) (s : string) :
  truthy o = Some s -> s <> "".
Proof.
  unfold truthy. destruct o as [t|]; [|discriminate].
  destruct (String.eqb_spec t "") as [_|Hne]; [discriminate|].
  intros H. inversion H; subst. exact Hne.
Qed.

Lemma first_truthy_not_empty (a b : option string) (s : string) :
  first_truthy a b = Some s -> s <> "".
Proof.
  unfold first_truthy. destruct (truthy a) as [t|] eqn:Ha.
  - intros H. inversion H; subst. exact (truthy_not_empty a s Ha).
  - exact (truthy_not_empty b s).
Qed.

Lemma or_empty_Some (s : string) : or_empty (Some s) = s.
Proof.
  unfold or_empty, truthy. destruct (String.eqb_spec s "") as [Heq|_];
    [symmetry; exact Heq|reflexivity].
Qed.

Lemma last_meta_key_truthy (key : string) (tags : list DomNode)
  (tag : DomNode) :
  last_meta key tags = Some tag -> key <> "".
Proof.
  induction tags as [|t rest IH]; [discriminate|].
  cbn [last_meta]. destruct (last_meta key rest) as [later|].
  - intros H. inversion H; subst. apply IH. reflexivity.
  - destruct (meta_key t) as [k|] eqn:Hk; [|discriminate].
    destruct (String.eqb_spec k key) as [Heq|_]; [|discriminate].
    intros _. subst key. exact (first_truthy_not_empty _ _ k Hk).
Qed.

(** X7.  What [extractMetaTags] keeps under a key, for every key other than
    [__proto__]: the content of the last [meta] element whose [property]
    attribute, or else whose [name] attribute, is that key, and the empty
    string when this element has no content; nothing when no element carries
    the key.  A key that has no '.' and no pair of brackets is a path that the
    evaluator resolves to this content. *)
Theorem metaTags_hold_last_content (B : Browser) (E : Engine)
  (document : Document) (key : string) :
  key <> "__proto__" ->
  (exists props,
      extractMetaTags B document = JsObject props
      /\ own_property key props
         = match last_meta key (querySelectorAll B document "meta") with
           | Some tag => Some (JsString (or_empty (getAttribute tag "content")))
           | None => None
           end)
  /\ (forall tag,
         last_meta key (querySelectorAll B document "meta") = Some tag ->
         includes "." key = false ->
         plain_name key = true ->
         evaluateStructuredDataPath E (extractMetaTags B document) key
         = Normal (Some (or_empty (getAttribute tag "content")))).
Proof.
  intros Hkey. unfold extractMetaTags.
  pose proof (collect_meta_lookup (querySelectorAll B document "meta") [] key
                Hkey) as Hlook.
  split.
  - eexists. split; [reflexivity|]. rewrite Hlook.
    destruct (last_meta key (querySelectorAll B document "meta")); reflexivity.
  - intros tag Hlast Hdot Hplain. rewrite Hlast in Hlook.
    rewrite (evaluate_resolve E (JsObject _) key eq_refl
               (last_meta_key_truthy _ _ _ Hlast)).
    rewrite (split_single _ _ Hdot). cbn [resolve].
    rewrite (advance_plain E _ key Hplain). unfold property.
    cbn [Get]. rewrite Hlook. reflexivity.
Qed.

Lemma metaTags_hold_last_content_witness :
  evaluateStructuredDataPath plain_engine
    (extractMetaTags example_browser example_document) "og:title"
  = Normal (Some "Example Product Page")
  /\ evaluateStructuredDataPath plain_engine
       (extractMetaTags example_browser example_document) "description"
     = Normal (Some "").
Proof.
  split.
  - apply (proj2 (metaTags_hold_last_content example_browser plain_engine
                    example_document "og:title" ltac:(discriminate))
             (meta_element [("property", "og:title"); ("name", "title");
                            ("content", "Example Product Page")]));
      reflexivity.
  - apply (proj2 (metaTags_hold_last_content example_browser plain_engine
                    example_document "description" ltac:(discriminate))
             (meta_element [("name", "description")]));
      reflexivity.
Defined.

(** X8.  A meta tag on the page decides the field.  Let the payload's
    metaTags be those extracted from the document and the selector's
    metaTags path be a key carried by some [meta] element, where the key is
    not [__proto__], holds no '.' and does not hold both '[' and ']', so that
    the evaluator reads it as one property name.  When jsonLd does not hit,
    the selector has neither transformations nor a regex, and the content of
    the last such element is not the text "Not found", [processSelector]
    returns that content from source metaTags, without looking at the later
    sources; an element without content gives the empty string as the
    value. *)
Theorem meta_tag_decides_field (B : Browser) (E : Engine)
  (document : Document) (data : StructuredDataPayload.t)
  (selector : FieldSelector.t) (key : string) (tag : DomNode) :
  StructuredDataPayload.metaTags data = extractMetaTags B document ->
  FieldSelector.metaTags selector = Some key ->
  last_meta key (querySelectorAll B document "meta") = Some tag ->
  key <> "__proto__" ->
  includes "." key = false ->
  plain_name key = true ->
  hit E data selector jsonLd = None ->
  or_empty (getAttribute tag "content") <> "Not found" ->
  FieldSelector.transformations selector = None ->
  FieldSelector.regex selector = None ->
  processSelector E data selector
  = Normal (Some (field_of (JsString (or_empty (getAttribute tag "content")))
                    metaTags key)).
Proof.
  intros Hdata Hsel Hlast Hkey Hdot Hplain Hjson Hnf Hts Hre.
  assert (Heval : evaluateStructuredDataPath E (extractMetaTags B document) key
                  = Normal (Some (or_empty (getAttribute tag "content")))).
  { unfold extractMetaTags.
    pose proof (collect_meta_lookup (querySelectorAll B document "meta") []
                  key Hkey) as Hlook.
    rewrite Hlast in Hlook.
    rewrite (evaluate_resolve E (JsObject _) key eq_refl
               (last_meta_key_truthy _ _ _ Hlast)).
    rewrite (split_single _ _ Hdot). cbn [resolve].
    rewrite (advance_plain E _ key Hplain). unfold property.
    cbn [Get]. rewrite Hlook. reflexivity. }
  assert (Hhit : hit E data selector metaTags
                 = Some (key, or_empty (getAttribute tag "content"))).
  { unfold hit. cbn [selector_path payload_source]. rewrite Hsel, Hdata.
    apply String.eqb_neq in Hnf.
    pose proof (last_meta_key_truthy _ _ _ Hlast) as Hne.
    apply String.eqb_neq in Hne. unfold truthy. rewrite Hne.
    unfold extractMetaTags at 1. cbn [ToBoolean].
    rewrite Heval, Hnf. reflexivity. }
  rewrite processSelector_first_hit. unfold priority. cbn [first_hit].
  rewrite Hjson, Hhit. unfold post_process, apply_selector_regex.
  rewrite Hts, Hre. reflexivity.
Qed.

Lemma meta_tag_decides_field_witness :
  processSelector plain_engine
    (payload_of JsUndefined
       (extractMetaTags example_browser example_document)
       (JsObject [("description", JsString "from the data layer")]))
    (selector_of None (Some "description") (Some "description") None None)
  = Normal (Some (field_of (JsString "") metaTags "description")).
Proof.
  apply (meta_tag_decides_field example_browser plain_engine example_document
           _ _ "description" (meta_element [("name", "description")]));
    try reflexivity; discriminate.
Defined.

(** ** [extractDataLayers] *)

Lemma collect_dataLayers_lookup (E : Engine) (window : JsValue)
  (names : list string) :
  is_nullish window = false ->
  forall acc,
  exists props,
    collect_dataLayers E window names acc = Normal props
    /\ forall name,
         own_property name props
         = if existsb (String.eqb name) names
              && ToBoolean (field E window name)
           then Some (field E window name)
           else own_property name acc.
Proof.
  intros Hwin. induction names as [|n rest IH]; intros acc.
  - exists acc. split; [reflexivity|]. intros name. reflexivity.
  - cbn [collect_dataLayers].
    destruct (Get_normal E window n Hwin) as [x Hx].
    assert (Hfield : field E window n = x)
      by (unfold field; rewrite Hx; reflexivity).
    rewrite Hx. cbn [bind].
    destruct (ToBoolean x) eqn:Hb.
    + destruct (IH (set_property acc n x)) as [props [Hrun Hlook]].
      exists props. split; [exact Hrun|].
      intros name. rewrite (Hlook name). cbn [existsb].
      destruct (String.eqb_spec name n) as [Heq|Hne].
      * subst name. rewrite Hfield, Hb. cbn [orb andb].
        rewrite own_property_set_same.
        destruct (existsb (String.eqb n) rest); reflexivity.
      * cbn [orb]. rewrite (own_property_set_other acc n name x);
          [reflexivity|]. intros Heq. apply Hne. symmetry. exact Heq.
    + destruct (IH acc) as [props [Hrun Hlook]].
      exists props. split; [exact Hrun|].
      intros name. rewrite (Hlook name). cbn [existsb].
      destruct (String.eqb_spec name n) as [Heq|Hne].
      * subst name. rewrite Hfield, Hb. cbn [orb].
        rewrite andb_false_r. reflexivity.
      * reflexivity.
Qed.



(** ** [extractJsonLdData] *)

(** X10.  A malformed JSON-LD block does not abort the extraction.  The
    result has one entry per matched [script] element, in document order:
    the parsed value where [JSON.parse] succeeds, and where it throws a
    placeholder that the evaluator reads back, [[i].error] being
    "Invalid JSON" and [[i].content] the raw text of the block. *)
Theorem malformed_block_becomes_placeholder (B : Browser) (E : Engine)
  (document : Document) (ds : string) (script : DomNode) :
  index_text ds = true ->
  nth_error (querySelectorAll B document jsonLd_selector)
    (N.to_nat (index_of_text ds)) = Some script ->
  (exists blocks,
      extractJsonLdData B document = JsArray blocks
      /\ List.length blocks
         = List.length (querySelectorAll B document jsonLd_selector)
      /\ forall parsed,
           JSON_parse B (textContent script) = Normal parsed ->
           nth_error blocks (N.to_nat (index_of_text ds)) = Some parsed)
  /\ (forall e,
         JSON_parse B (textContent script) = Throw e ->
         evaluateStructuredDataPath E (extractJsonLdData B document)
           (segment "" [ds] ++ ".error")
         = Normal (Some "Invalid JSON")
         /\ evaluateStructuredDataPath E (extractJsonLdData B document)
              (segment "" [ds] ++ ".content")
            = Normal (Some (textContent script))).
Proof.
  intros Hds Hnth. unfold extractJsonLdData.
  pose proof (map_nth_error (parse_script B) _ _ Hnth) as Hmap.
  split.
  - eexists. split; [reflexivity|]. split; [apply length_map|].
    intros parsed Hparse. rewrite Hmap. unfold parse_script.
    rewrite or_empty_Some, Hparse. reflexivity.
  - intros e Hparse.
    assert (Hblock : parse_script B script
                     = JsObject [("error", JsString "Invalid JSON");
                                 ("content", JsString (textContent script))]).
    { unfold parse_script. rewrite or_empty_Some, Hparse. reflexivity. }
    assert (Hdss : forallb index_text [ds] = true)
      by (cbn [forallb]; rewrite Hds; reflexivity).
    split.
    + change (segment "" [ds] ++ ".error")%string
        with (segment "" [ds] ++ String "." "error")%string.
      rewrite (evaluate_segment_then E (JsArray _) "" [ds] "error"
                 eq_refl eq_refl eq_refl ltac:(discriminate) Hdss).
      cbn [bracket_access String.eqb map index_chain element].
      rewrite Hmap, Hblock. reflexivity.
    + change (segment "" [ds] ++ ".content")%string
        with (segment "" [ds] ++ String "." "content")%string.
      rewrite (evaluate_segment_then E (JsArray _) "" [ds] "content"
                 eq_refl eq_refl eq_refl ltac:(discriminate) Hdss).
      cbn [bracket_access String.eqb map index_chain element].
      rewrite Hmap, Hblock. reflexivity.
Qed.

Lemma malformed_block_becomes_placeholder_witness :
  evaluateStructuredDataPath plain_engine
    (extractJsonLdData block_browser block_document) "[1].error"
  = Normal (Some "Invalid JSON").
Proof.
  apply (proj2 (malformed_block_becomes_placeholder block_browser plain_engine
                  block_document "1"
                  (DomElement "SCRIPT" [("type", "application/ld+json")]
                     [DomText "{ oops"])
                  eq_refl eq_refl) SyntaxError eq_refl).
Defined.

(** ** [extractMicrodata] *)

Lemma set_property_Forall (P : string * JsValue -> Prop)
  (props : list (string * JsValue)) (k : string) (v : JsValue) :
  P (k, v) -> Forall P props -> Forall P (set_property props k v).
Proof.
  intros Hkv Hall. induction Hall as [|[k' v'] rest Hhead Hrest IH];
    cbn [set_property].
  - constructor; [exact Hkv|constructor].
  - destruct (String.eqb_spec k' k) as [Heq|Hne].
    + subst k'. constructor; [exact Hkv|exact Hrest].
    + constructor; [exact Hhead|exact IH].
Qed.

Lemma assign_string_nonempty (props : list (string * JsValue))
  (key s : string) :
  key <> "" -> s <> "" ->
  Forall nonempty_string_entry props ->
  Forall nonempty_string_entry (assign_string props key s).
Proof.
  intros Hkey Hs Hall. unfold assign_string.
  destruct (String.eqb_spec key "__proto__") as [Hp|Hp]; [exact Hall|].
  apply set_property_Forall; [|exact Hall].
  repeat split; cbn [fst snd]; [exact Hkey|exact Hp|].
  exists s. split; [reflexivity|exact Hs].
Qed.

Lemma truthy_Some_not_empty (o : option string) (s : string) :
  truthy o = Some s -> s <> "".
Proof.
  unfold truthy. destruct o as [t|]; [|discriminate].
  destruct (String.eqb_spec t "") as [Heq|Hne]; [discriminate|].
  intros H. injection H as <-. exact Hne.
Qed.

Lemma collect_properties_nonempty (E : Engine) (props : list DomNode) :
  forall item,
    Forall nonempty_string_entry item ->
    Forall nonempty_string_entry (collect_properties E props item).
Proof.
  induction props as [|prop rest IH]; intros item Hitem;
    cbn [collect_properties]; [exact Hitem|].
  destruct (truthy (getAttribute prop "itemprop")) as [name|] eqn:Hname;
    [|apply IH; exact Hitem].
  destruct (truthy (property_value E prop)) as [value|] eqn:Hvalue;
    [|apply IH; exact Hitem].
  apply IH. apply assign_string_nonempty;
    [exact (truthy_Some_not_empty _ _ Hname)
    |exact (truthy_Some_not_empty _ _ Hvalue)
    |exact Hitem].
Qed.

(** X11.  [extractMicrodata] returns one item per element that carries
    [itemscope], in document order, and every item is a plain object all of
    whose own properties are non-empty strings under non-empty keys other
    than [__proto__]: a property without a name or without a value leaves no
    trace. *)
Theorem microdata_items_hold_nonempty_strings (B : Browser) (E : Engine)
  (document : Document) :
  exists items,
    extractMicrodata B E document = JsArray items
    /\ List.length items
       = List.length (querySelectorAll B document "[itemscope]")
    /\ Forall (fun item =>
                 exists props,
                   item = JsObject props
                   /\ Forall nonempty_string_entry props) items.
Proof.
  unfold extractMicrodata. eexists. split; [reflexivity|].
  split; [apply length_map|].
  apply Forall_forall. intros item Hin.
  apply in_map_iff in Hin. destruct Hin as [element [<- _]].
  unfold microdata_item. eexists. split; [reflexivity|].
  apply collect_properties_nonempty.
  destruct (truthy (getAttribute element "itemtype")) as [itemtype|] eqn:Htype;
    [|constructor].
  apply assign_string_nonempty;
    [discriminate|exact (truthy_Some_not_empty _ _ Htype)|constructor].
Qed.

Lemma filtered_subtree_pruned (B : Browser) (node : DomNode) :
  forall parents,
    map snd
      (filter (fun entry => belongs_to_scope (fst entry))
         (filter (fun entry => matches B "[itemprop]" (snd entry))
            (subtree_with_parents parents node)))
    = if belongs_to_scope parents then pruned_properties B node else [].
Proof.
  induction node as [data|tag attrs children IH] using DomNode_children_ind;
    intros parents.
  - cbn [subtree_with_parents filter map pruned_properties].
    destruct (belongs_to_scope parents); reflexivity.
  - set (node := DomElement tag attrs children).
    assert (Hchildren :
      forall above,
        map snd
          (filter (fun entry => belongs_to_scope (fst entry))
             (filter (fun entry => matches B "[itemprop]" (snd entry))
                (flat_map (subtree_with_parents above) children)))
        = if belongs_to_scope above
          then flat_map (pruned_properties B) children else []).
    { intros above. clear node.
      induction IH as [|c rest Hc _ IHrest]; cbn [flat_map filter map].
      - destruct (belongs_to_scope above); reflexivity.
      - rewrite !filter_app, map_app, (Hc above), IHrest.
        destruct (belongs_to_scope above); reflexivity. }
    change (subtree_with_parents parents node)
      with ((parents, node)
              :: flat_map (subtree_with_parents (node :: parents)) children).
    change (pruned_properties B node)
      with ((if matches B "[itemprop]" node then [node] else [])
            ++ (if hasAttribute node "itemscope" then []
                else flat_map (pruned_properties B) children)).
    cbn [filter snd].
    destruct (matches B "[itemprop]" node); cbn [filter fst map];
      [destruct (belongs_to_scope parents) eqn:Hscope; cbn [map]|];
      rewrite (Hchildren (node :: parents)); cbn [belongs_to_scope];
      try rewrite Hscope;
      destruct (hasAttribute node "itemscope");
      try destruct (belongs_to_scope parents); reflexivity.
Qed.

(** X12.  The properties of a microdata item are those a descent from the
    scope element meets without entering a nested scope.  The code walks
    [parentElement] upwards from every [itemprop] element below the scope;
    this equals the downward traversal that takes an element carrying
    [itemprop] and stops below one carrying [itemscope], so a nested item is
    itself a property of the outer one while its properties are not. *)
Theorem scope_properties_stop_at_nested_scope (B : Browser)
  (element : DomNode) :
  scope_properties B element
  = match element with
    | DomText _ => []
    | DomElement _ _ children => flat_map (pruned_properties B) children
    end.
Proof.
  unfold scope_properties, descendants_with_parents.
  destruct element as [data|tag attrs children]; [reflexivity|].
  induction children as [|c rest IH]; [reflexivity|].
  cbn [flat_map]. rewrite !filter_app, map_app, IH.
  rewrite (filtered_subtree_pruned B c []). reflexivity.
Qed.

(** ** [extractCustomData] *)

Lemma find_selector_absent (key : string) (entries : list (string * string)) :
  ~ In key (map fst entries) -> find_selector key entries = None.
Proof.
  induction entries as [|[k sel] rest IH]; intros Hnot; [reflexivity|].
  cbn [find_selector]. destruct (String.eqb_spec k key) as [Heq|_].
  - exfalso. apply Hnot. left. exact Heq.
  - apply IH. intros Hin. apply Hnot. right. exact Hin.
Qed.

Lemma own_property_assign_custom (result : CustomData.t)
  (k name : string) (v : JsValue) :
  name <> "__proto__" ->
  own_property name (CustomData.own (assign_custom result k v))
  = if k =? name then Some v
    else own_property name (CustomData.own result).
Proof.
  intros Hname. unfold assign_custom.
  destruct (String.eqb_spec k name) as [Heq|Hne].
  - subst k. apply String.eqb_neq in Hname. rewrite Hname. cbn [andb].
    cbn [CustomData.own]. apply own_property_set_same.
  - destruct ((k =? "__proto__") && negb (CustomData.null_prototype result));
      cbn [CustomData.own]; [reflexivity|].
    apply own_property_set_other. exact Hne.
Qed.

Lemma extractCustomData_loop_lookup (B : Browser) (E : Engine)
  (document : Document) (key : string) :
  key <> "__proto__" ->
  forall entries result,
    NoDup (map fst entries) ->
    own_property key
      (CustomData.own (extractCustomData_loop B E document entries result))
    = match found_text B E document (find_selector key entries) with
      | Some v => Some v
      | None =>
          match find_selector key entries with
          | Some _ => own_property key (CustomData.own result)
          | None => own_property key (CustomData.own result)
          end
      end.
Proof.
  intros Hkey. induction entries as [|[k sel] rest IH]; intros result Hnd;
    [reflexivity|].
  cbn [map fst] in Hnd. inversion Hnd as [|? ? Hfresh Hrest]; subst.
  cbn [extractCustomData_loop find_selector].
  destruct (String.eqb_spec k key) as [Heq|Hne].
  - subst k. cbn [found_text].
    destruct (querySelector B document sel) as [[element|]|e];
      rewrite (IH _ Hrest), (find_selector_absent _ _ Hfresh);
      cbn [found_text]; [|reflexivity|reflexivity].
    rewrite (own_property_assign_custom _ _ _ _ Hkey), String.eqb_refl.
    reflexivity.
  - destruct (querySelector B document sel) as [[element|]|e];
      rewrite (IH _ Hrest); [|reflexivity|reflexivity].
    rewrite (own_property_assign_custom _ _ _ _ Hkey).
    apply String.eqb_neq in Hne. rewrite Hne. reflexivity.
Qed.

(** X13.  [extractCustomData] decides every key on its own.  With selectors
    whose keys are distinct, as the entries of an object are, the result has
    an own property under a key other than [__proto__] exactly when the
    key's selector is accepted and matches an element; its value is then the
    trimmed text of that element, or [null] when the text trims to nothing.
    A selector that the browser rejects, or that matches nothing, changes
    neither its own key nor any other. *)
Theorem customData_decides_each_key_alone (B : Browser) (E : Engine)
  (document : Document) (selectors : list (string * string)) (key : string) :
  NoDup (map fst selectors) ->
  key <> "__proto__" ->
  own_property key
    (CustomData.own (extractCustomData B E document selectors))
  = found_text B E document (find_selector key selectors).
Proof.
  intros Hnd Hkey. unfold extractCustomData.
  rewrite (extractCustomData_loop_lookup B E document key Hkey _ _ Hnd).
  cbn [CustomData.own own_property].
  destruct (found_text B E document (find_selector key selectors));
    [reflexivity|].
  destruct (find_selector key selectors); reflexivity.
Qed.

Lemma customData_decides_each_key_alone_witness :
  own_property "name"
    (CustomData.own
       (extractCustomData attribute_browser plain_engine microdata_document
          [("broken", "h1["); ("missing", "h2"); ("name", "h1")]))
  = Some (JsString "Lamp").
Proof.
  rewrite (customData_decides_each_key_alone attribute_browser plain_engine
             microdata_document
             [("broken", "h1["); ("missing", "h2"); ("name", "h1")] "name").
  - reflexivity.
  - repeat constructor; cbn [In map fst]; intros H;
      repeat (destruct H as [H|H]; [discriminate H|]); exact H.
  - discriminate.
Defined.

Lemma extractCustomData_loop_without_proto (B : Browser) (E : Engine)
  (document : Document) :
  forall entries result,
    ~ In "__proto__" (map fst entries) ->
    own_property "__proto__"
      (CustomData.own (extractCustomData_loop B E document entries result))
    = own_property "__proto__" (CustomData.own result)
    /\ CustomData.null_prototype
         (extractCustomData_loop B E document entries result)
       = CustomData.null_prototype result.
Proof.
  induction entries as [|[k sel] rest IH]; intros result Hnot;
    [split; reflexivity|].
  cbn [extractCustomData_loop].
  assert (Hk : k <> "__proto__")
    by (intros Heq; apply Hnot; left; exact Heq).
  assert (Hrest : ~ In "__proto__" (map fst rest))
    by (intros Hin; apply Hnot; right; exact Hin).
  destruct (querySelector B document sel) as [[element|]|e];
    [|exact (IH result Hrest)|exact (IH result Hrest)].
  destruct (IH (assign_custom result k (trimmed_text_or_null E element))
              Hrest) as [Ho Hp].
  rewrite Ho, Hp. unfold assign_custom.
  apply String.eqb_neq in Hk. rewrite Hk.
  cbn [andb CustomData.own CustomData.null_prototype].
  split; [|reflexivity].
  apply own_property_set_other. apply String.eqb_neq. exact Hk.
Qed.

Lemma extractCustomData_loop_proto (B : Browser) (E : Engine)
  (document : Document) :
  forall entries result,
    NoDup (map fst entries) ->
    CustomData.null_prototype result = false ->
    own_property "__proto__" (CustomData.own result) = None ->
    own_property "__proto__"
      (CustomData.own (extractCustomData_loop B E document entries result))
    = None
    /\ CustomData.null_prototype
         (extractCustomData_loop B E document entries result)
       = match found_text B E document (find_selector "__proto__" entries) with
         | Some JsNull => true
         | _ => false
         end.
Proof.
  induction entries as [|[k sel] rest IH]; intros result Hnd Hproto Hown.
  - split; [exact Hown|exact Hproto].
  - cbn [map fst] in Hnd. inversion Hnd as [|? ? Hfresh Hrest]; subst.
    cbn [extractCustomData_loop find_selector].
    destruct (String.eqb_spec k "__proto__") as [Heq|Hne].
    + subst k. cbn [found_text].
      destruct (querySelector B document sel) as [[element|]|e].
      * destruct (extractCustomData_loop_without_proto B E document rest
                    (assign_custom result "__proto__"
                       (trimmed_text_or_null E element)) Hfresh) as [Ho Hp].
        rewrite Ho, Hp. unfold assign_custom. rewrite Hproto.
        cbn [String.eqb Ascii.eqb Bool.eqb andb negb CustomData.own
             CustomData.null_prototype].
        split; [exact Hown|reflexivity].
      * destruct (extractCustomData_loop_without_proto B E document rest
                    result Hfresh) as [Ho Hp].
        rewrite Ho, Hp. split; [exact Hown|exact Hproto].
      * destruct (extractCustomData_loop_without_proto B E document rest
                    result Hfresh) as [Ho Hp].
        rewrite Ho, Hp. split; [exact Hown|exact Hproto].
    + assert (Hstep :
        forall v,
          CustomData.null_prototype (assign_custom result k v) = false
          /\ own_property "__proto__"
               (CustomData.own (assign_custom result k v)) = None).
      { intros v. unfold assign_custom.
        apply String.eqb_neq in Hne. rewrite Hne.
        cbn [andb CustomData.own CustomData.null_prototype].
        split; [exact Hproto|].
        rewrite own_property_set_other; [exact Hown|].
        apply String.eqb_neq. exact Hne. }
      destruct (querySelector B document sel) as [[element|]|e];
        [|exact (IH result Hrest Hproto Hown)
         |exact (IH result Hrest Hproto Hown)].
      destruct (Hstep (trimmed_text_or_null E element)) as [Hp Ho].
      exact (IH _ Hrest Hp Ho).
Qed.

(** X14.  A selector keyed [__proto__] never becomes a property of the
    result of [extractCustomData].  With distinct keys the result has no own
    property of that name; the text found for it is dropped, and when the
    matched element has no text after trimming, the [null] that is assigned
    replaces the prototype of the result object. *)
Theorem customData_proto_key_is_not_stored (B : Browser) (E : Engine)
  (document : Document) (selectors : list (string * string)) :
  NoDup (map fst selectors) ->
  let result := extractCustomData B E document selectors in
  own_property "__proto__" (CustomData.own result) = None
  /\ CustomData.null_prototype result
     = match found_text B E document (find_selector "__proto__" selectors) with
       | Some JsNull => true
       | _ => false
       end.
Proof.
  intros Hnd. unfold extractCustomData.
  exact (extractCustomData_loop_proto B E document selectors
           {| CustomData.own := []; CustomData.null_prototype := false |}
           Hnd eq_refl eq_refl).
Qed.

Lemma customData_proto_key_is_not_stored_witness :
  own_property "__proto__"
    (CustomData.own
       (extractCustomData attribute_browser plain_engine microdata_document
          [("__proto__", "h1"); ("name", "h1")])) = None
  /\ CustomData.null_prototype
       (extractCustomData attribute_browser plain_engine microdata_document
          [("__proto__", "h1"); ("name", "h1")]) = false.
Proof.
  apply (customData_proto_key_is_not_stored attribute_browser plain_engine
           microdata_document [("__proto__", "h1"); ("name", "h1")]).
  repeat constructor; cbn [In map fst]; intros H;
    repeat (destruct H as [H|H]; [discriminate H|]); exact H.
Defined.

(** ** [hasStructuredData] *)

(** X15.  On a page where none of the three queries matches an element,
    [hasStructuredData] returns the value of the chain
    [window && window.dataLayer && Array.isArray(...) && length > 0] as it
    is: a falsy window itself, a falsy [window.dataLayer] itself (so
    [undefined] when the window has none), whether the array is non-empty
    when [dataLayer] is an array, and [false] for a truthy [dataLayer] that
    is no array. *)
Theorem hasStructuredData_returns_chain_value (B : Browser) (E : Engine)
  (document : Document) (window : JsValue) :
  querySelectorAll B document jsonLd_selector = [] ->
  querySelectorAll B document "meta[property], meta[name]" = [] ->
  querySelectorAll B document "[itemscope]" = [] ->
  (ToBoolean window = false ->
   hasStructuredData B E (Some document) window = window)
  /\ (forall dataLayer,
         ToBoolean window = true ->
         Get E window "dataLayer" = Normal dataLayer ->
         (ToBoolean dataLayer = false ->
          hasStructuredData B E (Some document) window = dataLayer)
         /\ (forall elems,
                dataLayer = JsArray elems ->
                hasStructuredData B E (Some document) window
                = JsBoolean (negb (Nat.eqb (List.length elems) 0)))
         /\ (ToBoolean dataLayer = true ->
             isArray E dataLayer = false ->
             hasStructuredData B E (Some document) window
             = JsBoolean false)).
Proof.
  intros H1 H2 H3. unfold hasStructuredData, hasDataLayer.
  rewrite H1, H2, H3. cbn [List.length Nat.eqb negb orb].
  split.
  - intros Hw. rewrite Hw. reflexivity.
  - intros dataLayer Hw Hget. rewrite Hw, Hget. cbn [bind]. repeat split.
    + intros Hd. rewrite Hd. reflexivity.
    + intros elems ->. reflexivity.
    + intros Hd Harr. rewrite Hd, Harr. reflexivity.
Qed.

Lemma hasStructuredData_returns_chain_value_witness :
  hasStructuredData example_browser plain_engine (Some blank_document) JsNull
  = JsNull
  /\ hasStructuredData example_browser plain_engine (Some blank_document)
       (JsObject [])
     = JsUndefined
  /\ hasStructuredData example_browser plain_engine (Some blank_document)
       example_window
     = JsBoolean true
  /\ hasStructuredData example_browser plain_engine (Some blank_document)
       (JsObject [("dataLayer", JsString "events")])
     = JsBoolean false.
Proof.
  split.
  { apply (proj1 (hasStructuredData_returns_chain_value example_browser
                    plain_engine blank_document JsNull
                    eq_refl eq_refl eq_refl)).
    reflexivity. }
  split.
  { apply (proj1 (proj2 (hasStructuredData_returns_chain_value
                           example_browser plain_engine blank_document
                           (JsObject []) eq_refl eq_refl eq_refl)
                    JsUndefined eq_refl eq_refl)).
    reflexivity. }
  split.
  { apply (proj1 (proj2 (proj2 (hasStructuredData_returns_chain_value
                                  example_browser plain_engine blank_document
                                  example_window eq_refl eq_refl eq_refl)
                           (field plain_engine example_window "dataLayer")
                           eq_refl eq_refl))
             [JsObject [("product",
                         JsObject [("name", JsString "Example")])]]).
    reflexivity. }
  apply (proj2 (proj2 (proj2 (hasStructuredData_returns_chain_value
                                example_browser plain_engine blank_document
                                (JsObject [("dataLayer", JsString "events")])
                                eq_refl eq_refl eq_refl)
                         (JsString "events") eq_refl eq_refl)));
    reflexivity.
Defined.

(** ** [extractAll] *)

Lemma location_href_normal (E : Engine) (window : JsValue) :
  is_nullish window = false ->
  location_href E window
  = Normal (if ToBoolean (href_of E window) then href_of E window
            else JsString "").
Proof.
  intros Hwin. unfold location_href, href_of.
  destruct (Get_normal E window "location" Hwin) as [location Hloc].
  unfold field at 2 4. rewrite Hloc. cbn [bind].
  destruct (is_nullish location) eqn:Hnull.
  - destruct location; try discriminate Hnull; reflexivity.
  - destruct (Get_normal E location "href" Hnull) as [href Hhref].
    unfold field. rewrite Hhref. reflexivity.
Qed.

(** X16.  What [extractAll] returns passes [validateStructuredData] unless
    the page's address is not a string.  For a window that is neither
    [null] nor [undefined] the call returns a payload, and the validator
    accepts it exactly when [window.location?.href] is falsy, in which case
    the url is the empty string, or a string; for a [null] or [undefined]
    window the call throws. *)
Theorem extracted_payload_validates (B : Browser) (E : Engine)
  (document : Document) (window : JsValue) (now : string) :
  (is_nullish window = true ->
   extractAll B E document window now = Throw TypeError)
  /\ (is_nullish window = false ->
      exists payload,
        extractAll B E document window now = Normal payload
        /\ validateStructuredData E payload
           = Normal (negb (ToBoolean (href_of E window))
                     || (typeof E (href_of E window) =? "string"))).
Proof.
  split.
  - intros H. destruct window; try discriminate H; reflexivity.
  - intros Hwin. unfold extractAll.
    unfold extractDataLayers.
    destruct (collect_dataLayers_lookup E window commonDataLayerNames Hwin [])
      as [props [Hlayers _]].
    rewrite Hlayers, (location_href_normal E window Hwin). cbn [bind].
    eexists. split; [reflexivity|].
    rewrite validateStructuredData_well_typed. f_equal.
    unfold well_typed, field, extractJsonLdData, extractMetaTags.
    cbn [Get own_property String.eqb Ascii.eqb Bool.eqb typeof isArray
         andb negb].
    destruct (ToBoolean (href_of E window)); cbn [negb orb typeof];
      [rewrite !andb_true_r|]; reflexivity.
Qed.

Lemma extracted_payload_validates_witness :
  exists payload,
    extractAll example_browser plain_engine example_document example_window
      "2025-01-23T00:00:00.000Z" = Normal payload
    /\ validateStructuredData plain_engine payload = Normal true.
Proof.
  destruct (proj2 (extracted_payload_validates example_browser plain_engine
                     example_document example_window
                     "2025-01-23T00:00:00.000Z") eq_refl)
    as [payload [Hrun Hvalid]].
  exists payload. split; [exact Hrun|exact Hvalid].
Defined.
